(** * FACSvatar message bus ([modules/n_proxy_m_bus.py])

    A shallow embedding of the N-proxy-M bus of FACSvatar: the start-up
    check of [FACSvatarMessages.start], the subscriber loop
    [pub_sub_function] that filters, smooths and republishes FACS
    messages, and the router loop [set_parameters] with [set_multiplier].

    Python values are modelled by an inductive type of JSON-shaped values,
    exceptions by a sum type, and the mutable [SmoothData] object by
    explicit state passing.  The libraries the module calls but does not
    define ([json], [numpy], the repository's [smooth_data] module) are
    collected in a record of operations, [PyEnv]. *)

From Stdlib Require Import Bool List ZArith NArith Ascii String SpecFloat.
From Stdlib Require Import Sorted Permutation QArith Qabs Lia DecimalString.
From Stdlib Require OrderedTypeEx.
Import ListNotations.

Local Open Scope string_scope.
Local Open Scope list_scope.

(** ** Python values *)

(** [bytes] objects are sequences of 8-bit characters.  A [str] is
    represented by its UTF-8 encoding; the order and the prefix relation
    of code-point sequences coincide with those of their encodings. *)
Definition bytes := string.
Definition str := string.

Inductive exn : Type :=
| IndexError
| KeyError
| TypeError
| AttributeError
| ValueError
| UnicodeDecodeError
| JSONDecodeError
| LibraryError (code : nat).

(** What [json.loads] can return: [None], [bool], [int], [float], [str],
    [list] and [dict] with string keys.  A [dict] keeps its insertion
    order, so it is an association list. *)
#[local] Set Warnings "-register-all".
Inductive pyval : Type :=
| PNone
| PBool (b : bool)
| PInt (z : Z)
| PFloat (f : spec_float)
| PStr (s : str)
| PList (l : list pyval)
| PDict (d : list (str * pyval)).

Definition result (A : Type) : Type := (exn + A)%type.

(** ** Computations that mutate an object and may raise *)

Definition M (S A : Type) : Type := S -> S * result A.

Definition ret {S A} (a : A) : M S A := fun s => (s, inr a).
Definition raise {S A} (e : exn) : M S A := fun s => (s, inl e).
Definition lift {S A} (r : result A) : M S A := fun s => (s, r).
Definition bind {S A B} (m : M S A) (k : A -> M S B) : M S B :=
  fun s => match m s with
           | (s', inl e) => (s', inl e)
           | (s', inr a) => k a s'
           end.

Declare Scope py_scope.
Delimit Scope py_scope with py.
Notation "x <- m ;; k" := (bind m (fun x => k))
  (at level 61, m at next level, right associativity) : py_scope.
Local Open Scope py_scope.

(** ** Builtins used by the module *)

(** [seq[i]] on a list. *)
Definition index {A} (l : list A) (i : nat) : result A :=
  match nth_error l i with
  | Some a => inr a
  | None => inl IndexError
  end.

Definition in_range (c : ascii) (lo hi : N) : bool :=
  (lo <=? N_of_ascii c)%N && (N_of_ascii c <=? hi)%N.

(** Well-formed UTF-8 (no overlong forms, no surrogates, at most
    U+10FFFF), as the strict decoder of [bytes.decode('utf-8')] accepts. *)
Fixpoint utf8_valid (s : bytes) : bool :=
  match s with
  | EmptyString => true
  | String c r =>
    if in_range c 0 127 then utf8_valid r
    else if in_range c 194 223 then
      match r with
      | String c1 r1 => in_range c1 128 191 && utf8_valid r1
      | _ => false
      end
    else if in_range c 224 239 then
      match r with
      | String c1 (String c2 r2) =>
        (if in_range c 224 224 then in_range c1 160 191
         else if in_range c 237 237 then in_range c1 128 159
         else in_range c1 128 191)
        && in_range c2 128 191 && utf8_valid r2
      | _ => false
      end
    else if in_range c 240 244 then
      match r with
      | String c1 (String c2 (String c3 r3)) =>
        (if in_range c 240 240 then in_range c1 144 191
         else if in_range c 244 244 then in_range c1 128 143
         else in_range c1 128 191)
        && in_range c2 128 191 && in_range c3 128 191 && utf8_valid r3
      | _ => false
      end
    else false
  end.

(** [b.decode('utf-8')] *)
Definition decode (b : bytes) : result str :=
  if utf8_valid b then inr b else inl UnicodeDecodeError.

(** [s.startswith(p)] *)
Definition startswith (s p : str) : bool := prefix p s.

(** [p in s] on strings: [p] occurs as a substring of [s]. *)
Fixpoint str_contains (p s : str) : bool :=
  prefix p s ||
  match s with
  | EmptyString => false
  | String _ r => str_contains p r
  end.

(** *** Dictionaries *)

Definition dict := list (str * pyval).

Fixpoint dict_get (k : str) (d : dict) : option pyval :=
  match d with
  | [] => None
  | (k', v) :: r => if String.eqb k k' then Some v else dict_get k r
  end.

Definition dict_mem (k : str) (d : dict) : bool :=
  match dict_get k d with Some _ => true | None => false end.

(** [d[k] = v]: an existing key keeps its position, a new key goes last. *)
Fixpoint dict_set (k : str) (v : pyval) (d : dict) : dict :=
  match d with
  | [] => [(k, v)]
  | (k', v') :: r =>
    if String.eqb k k' then (k, v) :: r else (k', v') :: dict_set k v r
  end.

(** [dict(pairs)] *)
Definition dict_of_items (l : list (str * pyval)) : dict :=
  fold_left (fun d kv => dict_set (fst kv) (snd kv) d) l [].

(** [sorted(items, key=lambda k: k[0])]: a stable sort on the keys. *)
Fixpoint insert_item (kv : str * pyval) (l : list (str * pyval)) :=
  match l with
  | [] => [kv]
  | kv' :: r =>
    if String.ltb (fst kv) (fst kv') then kv :: l else kv' :: insert_item kv r
  end.

Definition sorted_by_key (l : list (str * pyval)) : list (str * pyval) :=
  fold_left (fun acc kv => insert_item kv acc) l [].

(** What the two smoothing steps leave alone in a payload: the keys,
    their order, and every value but those of [au_r] and [pose]. *)
Definition same_but_smoothed (d d' : dict) : Prop :=
  map fst d' = map fst d /\
  forall k, k <> "au_r" -> k <> "pose" -> dict_get k d' = dict_get k d.

(** The order [sorted] leaves the items in. *)
Definition key_le (x y : str * pyval) : Prop :=
  String.leb (fst x) (fst y) = true.

(** [k in v] *)
Definition py_contains (k : str) (v : pyval) : result bool :=
  match v with
  | PDict d => inr (dict_mem k d)
  | PList l =>
    inr (existsb (fun x => match x with
                           | PStr s => String.eqb k s
                           | _ => false
                           end) l)
  | PStr s => inr (str_contains k s)
  | _ => inl TypeError
  end.

(** [v[k]] with a string subscript *)
Definition py_getitem (v : pyval) (k : str) : result pyval :=
  match v with
  | PDict d =>
    match dict_get k d with
    | Some x => inr x
    | None => inl KeyError
    end
  | _ => inl TypeError
  end.

(** [v[k] = x] with a string subscript *)
Definition py_setitem (v : pyval) (k : str) (x : pyval) : result pyval :=
  match v with
  | PDict d => inr (PDict (dict_set k x d))
  | _ => inl TypeError
  end.

(** [v.items()] *)
Definition py_items (v : pyval) : result (list (str * pyval)) :=
  match v with
  | PDict d => inr d
  | _ => inl AttributeError
  end.

(** *** Floating-point constants of the module *)

(** The doubles written [0.8], [.35] and [.2] in the source. *)
Definition confidence_threshold : spec_float :=
  S754_finite false 7205759403792794 (-53).
Definition steep_au_r : spec_float :=
  S754_finite false 6305039478318694 (-54).
Definition steep_pose : spec_float :=
  S754_finite false 7205759403792794 (-55).

(** The rational a finite double stands for. *)
Definition Q_of_float (f : spec_float) : option Q :=
  match f with
  | S754_zero _ => Some 0%Q
  | S754_finite s m e =>
    let a := if s then Z.neg m else Z.pos m in
    Some (if (0 <=? e)%Z then inject_Z (a * 2 ^ e)
          else Qmake a (Z.to_pos (2 ^ (- e))))
  | _ => None
  end.

(** [q] rounds to the double [f]: it lies within half a unit in the last
    place of a 53-bit mantissa. *)
Definition rounds_to (q : Q) (f : spec_float) : Prop :=
  match f with
  | S754_finite _ m e =>
    (2 ^ 52 <= Z.pos m < 2 ^ 53)%Z /\
    exists x, Q_of_float f = Some x /\
              (Qabs (q - x) <= Qmake 1 (Z.to_pos (2 ^ (1 - e))))%Q
  | _ => False
  end.

(** [v >= 0.8]: an [int] (or [bool]) is compared exactly, so it passes
    from 1 on; a NaN compares false; other types do not order with a
    float. *)
Definition py_ge_threshold (v : pyval) : result bool :=
  match v with
  | PBool b => inr b
  | PInt z => inr (1 <=? z)%Z
  | PFloat f => inr (SFleb confidence_threshold f)
  | _ => inl TypeError
  end.

(** [v < 0.8] as a proposition on numbers. *)
Definition below_threshold (v : pyval) : Prop :=
  match v with
  | PBool b => b = false
  | PInt z => (z <= 0)%Z
  | PFloat f => SFltb f confidence_threshold = true
  | _ => False
  end.

Definition at_least_threshold (v : pyval) : Prop :=
  match v with
  | PBool b => b = true
  | PInt z => (1 <= z)%Z
  | PFloat f => SFleb confidence_threshold f = true
  | _ => False
  end.

(** ** The libraries around the module *)

(** The [SmoothData] object of the repository's [smooth_data] module, as
    far as this module touches it: the [multiplier] attribute that
    [set_multiplier] assigns, and the histories its smoothing methods
    keep, of a type [H] left to that module. *)
Record SmoothData (A H : Type) : Type := mkSmoothData {
  multiplier : A;
  queues : H
}.
Arguments mkSmoothData {A H}.
Arguments multiplier {A H}.
Arguments queues {A H}.

(** Operations the module imports: [json.loads] and [json.dumps] (the
    latter followed by [.encode('utf-8')]), [np.array], the constructor
    [SmoothData()] and the smoothing method that [getattr] selects, with
    its keyword arguments [queue_no], [window_size] and [steep].  The
    method returns a JSON-shaped value, which [json.dumps] always
    encodes. *)
Record PyEnv : Type := mkPyEnv {
  ndarray : Type;
  history : Type;
  json_loads : str -> result pyval;
  json_dumps : pyval -> bytes;
  np_array : pyval -> result ndarray;
  SmoothData_new : SmoothData ndarray history;
  smooth_func : pyval -> nat -> nat -> spec_float ->
                M (SmoothData ndarray history) pyval
}.

Definition smoother (E : PyEnv) : Type := SmoothData (ndarray E) (history E).

(** ** [pub_sub_function] *)

Section PubSub.
Context (E : PyEnv).

(** Lines 126-127: ['confidence' not in msg[2] or msg[2]['confidence'] >= 0.8] *)
Definition confidence_ok (data : pyval) : result bool :=
  match py_contains "confidence" data with
  | inl e => inl e
  | inr false => inr true
  | inr true =>
    match py_getitem data "confidence" with
    | inl e => inl e
    | inr c => py_ge_threshold c
    end
  end.

(** Lines 133-139: the [au_r] field. *)
Definition smooth_au_r (data : pyval) : M (smoother E) pyval :=
  has_au_r <- lift (py_contains "au_r" data) ;;
  if has_au_r : bool then
    au_r_dict <- lift (py_getitem data "au_r") ;;
    items <- lift (py_items au_r_dict) ;;
    let au_r_sorted := PDict (dict_of_items (sorted_by_key items)) in
    smoothed <- smooth_func E au_r_sorted 0 4 steep_au_r ;;
    lift (py_setitem data "au_r" smoothed)
  else ret data.

(** Lines 141-143: the [pose] field. *)
Definition smooth_pose (data : pyval) : M (smoother E) pyval :=
  has_pose <- lift (py_contains "pose" data) ;;
  if has_pose : bool then
    pose <- lift (py_getitem data "pose") ;;
    smoothed <- smooth_func E pose 1 4 steep_pose ;;
    lift (py_setitem data "pose" smoothed)
  else ret data.

(** Lines 129-153: what happens to a message that passed the
    confidence test. *)
Definition forward (msg : list bytes) (data : pyval)
  : M (smoother E) (option (list bytes)) :=
  msg0 <- lift (index msg 0) ;;
  topic <- lift (decode msg0) ;;
  data' <- (if negb (startswith topic "facsvatar")
            then (data1 <- smooth_au_r data ;; smooth_pose data1)
            else ret data) ;;
  msg1 <- lift (index msg 1) ;;
  ret (Some [msg0; msg1; json_dumps E data']).

(** Lines 123-158: the body of the [while True] loop for one received
    message.  The result is the message handed to
    [pub_socket.send_multipart], if any. *)
Definition pub_sub_iteration (msg : list bytes)
  : M (smoother E) (option (list bytes)) :=
  msg1 <- lift (index msg 1) ;;
  if negb (String.eqb msg1 EmptyString) then
    msg2 <- lift (index msg 2) ;;
    text <- lift (decode msg2) ;;
    data <- lift (json_loads E text) ;;
    pass <- lift (confidence_ok data) ;;
    if pass : bool then forward msg data else ret None
  else
    msg0 <- lift (index msg 0) ;;
    ret (Some [msg0; EmptyString; EmptyString]).

(** A message that is not the end-of-stream marker and whose third
    part decodes to the value [data]. *)
Definition parsed (msg : list bytes) (frame : bytes) (data : pyval) : Prop :=
  index msg 1 = inr frame /\ frame <> EmptyString /\
  exists payload text,
    index msg 2 = inr payload /\ decode payload = inr text /\
    json_loads E text = inr data.

(** The state of a run of the coroutine over the messages received so
    far: what was published, what [logging.error] recorded, and whether
    the coroutine is still in its loop. *)
Record run : Type := mkRun {
  smooth_data_of : smoother E;
  published : list (list bytes);
  logged : list exn;
  listening : bool
}.

Definition publish (o : option (list bytes)) (r : run) : run :=
  match o with
  | Some m => mkRun (smooth_data_of r) (m :: published r) (logged r) (listening r)
  | None => r
  end.

(** Lines 102-164: [try: while True: ... except: logging.error(...)].
    The handler is outside the loop: an exception leaves the loop and
    the coroutine returns. *)
Fixpoint pub_sub_loop (sd : smoother E) (inbox : list (list bytes)) : run :=
  match inbox with
  | [] => mkRun sd [] [] true
  | msg :: rest =>
    match pub_sub_iteration msg sd with
    | (sd', inl e) => mkRun sd' [] [e] false
    | (sd', inr o) => publish o (pub_sub_loop sd' rest)
    end
  end.

(** Lines 95-164, on the messages [inbox] that arrive on the
    subscriber socket. *)
Definition pub_sub_function (inbox : list (list bytes)) : run :=
  pub_sub_loop (SmoothData_new E) inbox.

End PubSub.

(** ** [start], [set_parameters] and [set_multiplier] *)

Inductive socket : Type := Socket (endpoint : string).

(** The two coroutines [__main__] hands to [start]. *)
Inductive coroutine : Type :=
| Pub_sub_function (apply_function : str)
| Set_parameters.

(** How [start] ends up: [sys.exit()], the event loop running the given
    coroutines, or [zmq.proxy] between the two sockets. *)
Inductive startup : Type :=
| SystemExit
| RunUntilComplete (tasks : list coroutine)
| ZmqProxy (frontend backend : socket).

Section Router.
Context (E : PyEnv).

(** The attributes of the [FACSvatarMessages] object this module reads
    and writes.  [smooth_data] exists only once [pub_sub_function] has
    assigned it. *)
Record FACSvatarMessages : Type := mkSelf {
  pub_socket : option socket;
  sub_socket : option socket;
  smooth_data : option (smoother E)
}.

(** Lines 60-89. *)
Definition start (self : FACSvatarMessages)
           (async_func_list : option (list coroutine)) : startup :=
  match pub_socket self, sub_socket self with
  | Some pub, Some sub =>
    match async_func_list with
    | Some (f :: fs) => RunUntilComplete (f :: fs)
    | _ => ZmqProxy pub sub
    end
  | _, _ => SystemExit
  end.

(** Line 195: [self.smooth_data.multiplier = au_multiplier_np] *)
Definition assign_multiplier (a : ndarray E) : M FACSvatarMessages unit :=
  fun self =>
    match smooth_data self with
    | None => (self, inl AttributeError)
    | Some sd =>
      (mkSelf (pub_socket self) (sub_socket self)
              (Some (mkSmoothData a (queues sd))), inr tt)
    end.

(** Lines 186-195. *)
Definition set_multiplier (data : bytes) : M FACSvatarMessages unit :=
  text <- lift (decode data) ;;
  au_multiplier_list <- lift (json_loads E text) ;;
  au_multiplier_np <- lift (np_array E au_multiplier_list) ;;
  assign_multiplier au_multiplier_np.

(** Lines 172-177: the body of the [try] for one received command. *)
Definition set_parameters_iteration (msg : list bytes)
  : M FACSvatarMessages unit :=
  match msg with
  | [id_dealer; topic; data] =>
    t <- lift (decode topic) ;;
    if startswith t "multiplier" then set_multiplier data else ret tt
  | _ => raise ValueError
  end.

(** Lines 170-183: [while True: try: ... except Exception: ...].  The
    handler is inside the loop; the result is the object after all
    commands and what [logging.error] recorded. *)
Fixpoint set_parameters (self : FACSvatarMessages)
         (commands : list (list bytes)) : FACSvatarMessages * list exn :=
  match commands with
  | [] => (self, [])
  | msg :: rest =>
    match set_parameters_iteration msg self with
    | (self', inl e) =>
      let (self'', errors) := set_parameters self' rest in
      (self'', e :: errors)
    | (self', inr _) => set_parameters self' rest
    end
  end.

(** *** The two coroutines on one event loop *)

Inductive task : Type := Pending | Listening | Returned.

(** What the event loop resumes a coroutine with: the first step of
    [pub_sub_function] (lines 95-100), a message on the subscriber
    socket, or a message on the router socket. *)
Inductive event : Type :=
| Begin
| Sub (msg : list bytes)
| Rout (msg : list bytes).

Record bus : Type := mkBus {
  self_of : FACSvatarMessages;
  pub_sub_task : task;
  sent : list (list bytes);
  errors : list exn
}.

Definition with_smooth_data (self : FACSvatarMessages)
           (sd : smoother E) : FACSvatarMessages :=
  mkSelf (pub_socket self) (sub_socket self) (Some sd).

Definition handle (b : bus) (ev : event) : bus :=
  match ev with
  | Begin =>
    match pub_sub_task b with
    | Pending =>
      mkBus (with_smooth_data (self_of b) (SmoothData_new E))
            Listening (sent b) (errors b)
    | _ => b
    end
  | Sub msg =>
    match pub_sub_task b, smooth_data (self_of b) with
    | Listening, Some sd =>
      match pub_sub_iteration E msg sd with
      | (sd', inl e) =>
        mkBus (with_smooth_data (self_of b) sd') Returned
              (sent b) (errors b ++ [e])
      | (sd', inr (Some out)) =>
        mkBus (with_smooth_data (self_of b) sd') Listening
              (sent b ++ [out]) (errors b)
      | (sd', inr None) =>
        mkBus (with_smooth_data (self_of b) sd') Listening
              (sent b) (errors b)
      end
    | _, _ => b
    end
  | Rout msg =>
    match set_parameters_iteration msg (self_of b) with
    | (self', inl e) => mkBus self' (pub_sub_task b) (sent b) (errors b ++ [e])
    | (self', inr _) => mkBus self' (pub_sub_task b) (sent b) (errors b)
    end
  end.

Definition run_events (b : bus) (evs : list event) : bus :=
  fold_left handle evs b.

(** The object as [__main__] leaves it before [start]: both sockets
    bound, no [smooth_data] yet. *)
Definition fresh_bus (pub sub : socket) : bus :=
  mkBus (mkSelf (Some pub) (Some sub) None) Pending [] [].

End Router.

Arguments mkSelf {E}.
Arguments pub_socket {E}.
Arguments sub_socket {E}.
Arguments smooth_data {E}.
Arguments mkRun {E}.
Arguments published {E}.
Arguments logged {E}.
Arguments listening {E}.
Arguments smooth_data_of {E}.
Arguments mkBus {E}.
Arguments self_of {E}.
Arguments pub_sub_task {E}.
Arguments sent {E}.
Arguments errors {E}.

(** ** A small environment to run the model on

    Stand-ins for the imported operations, used to evaluate the model on
    concrete messages: a decoder that knows the sample payloads below, an
    encoder for values without escapes, [np.array] as the identity, and a
    smoother that records each call and returns the sample it was given
    (what a moving average returns on a stream without history). *)

Module Sample.

Definition quote : string := String (ascii_of_nat 34) EmptyString.
Definition q (s : string) : string := (quote ++ s ++ quote)%string.

Definition digits (z : Z) : string :=
  DecimalString.NilZero.string_of_int (Z.to_int z).

Fixpoint strip_zeros (s : string) : string :=
  match s with
  | EmptyString => EmptyString
  | String c r =>
    match strip_zeros r with
    | EmptyString => if Ascii.eqb c "0" then EmptyString else String c EmptyString
    | r' => String c r'
    end
  end.

(** The decimal expansion of a double. *)
Definition float_text (f : spec_float) : string :=
  match f with
  | S754_nan => "NaN"
  | S754_infinity s => if s then "-Infinity" else "Infinity"
  | S754_zero s => if s then "-0.0" else "0.0"
  | S754_finite s m e =>
    let sign := if s then "-" else EmptyString in
    if (0 <=? e)%Z then (sign ++ digits (Z.pos m * 2 ^ e) ++ ".0")%string
    else
      let k := (- e)%Z in
      let n := (Z.pos m * 5 ^ k)%Z in
      let frac := match digits (10 ^ k + n mod 10 ^ k) with
                  | String _ r => strip_zeros r
                  | EmptyString => EmptyString
                  end in
      (sign ++ digits (n / 10 ^ k) ++ "." ++
       match frac with EmptyString => "0" | _ => frac end)%string
  end.

Fixpoint dumps (v : pyval) : string :=
  match v with
  | PNone => "null"
  | PBool b => if b then "true" else "false"
  | PInt z => digits z
  | PFloat f => float_text f
  | PStr s => q s
  | PList l =>
    ("[" ++ String.concat ", " (map dumps l) ++ "]")%string
  | PDict d =>
    ("{" ++ String.concat ", "
            (map (fun kv => (q (fst kv) ++ ": " ++ dumps (snd kv))%string) d)
         ++ "}")%string
  end.

Definition half : spec_float := S754_finite false 4503599627370496 (-53).
Definition one_and_half : spec_float :=
  S754_finite false 6755399441055744 (-52).

Definition au_r_value : pyval := PDict [("AU02", PInt 1); ("AU01", PInt 2)].
Definition pose_value : pyval := PDict [("pose_Rx", PInt 3)].

Definition payload_full : pyval :=
  PDict [("confidence", PInt 1); ("frame", PInt 7);
         ("au_r", au_r_value); ("pose", pose_value)].
Definition payload_low : pyval :=
  PDict [("confidence", PFloat half); ("au_r", au_r_value)].
Definition payload_bad_au_r : pyval := PDict [("au_r", PInt 5)].
Definition payload_multiplier : pyval := PList [PFloat one_and_half].

Definition samples : list pyval :=
  [payload_full; payload_low; payload_bad_au_r; payload_multiplier].

(** The decoder on the sample texts; any other text is refused. *)
Definition loads (text : str) : result pyval :=
  match find (fun v => String.eqb (dumps v) text) samples with
  | Some v => inr v
  | None => inl JSONDecodeError
  end.

Definition calls : Type := list (nat * nat * pyval).

Definition smooth (data : pyval) (queue_no window_size : nat)
           (steep : spec_float) : M (SmoothData pyval calls) pyval :=
  fun sd =>
    (mkSmoothData (multiplier sd)
                  (queues sd ++ [(queue_no, window_size, data)]),
     inr data).

Definition env : PyEnv :=
  mkPyEnv pyval calls loads dumps (fun v => inr v)
          (mkSmoothData (PInt 1) []) smooth.

Definition sd0 : smoother env := SmoothData_new env.

(** A message of the tracker, a low-confidence one, one whose [au_r]
    is no mapping, the first payload under the reserved topic, the
    end-of-stream message, and the first payload under a topic that is
    not UTF-8. *)
Definition msg_full : list bytes := ["openface"; "17"; dumps payload_full].
Definition msg_extra : list bytes :=
  ["openface"; "17"; dumps payload_full; "data2"].
Definition msg_low : list bytes := ["openface"; "18"; dumps payload_low].
Definition msg_bad_au_r : list bytes :=
  ["openface"; "19"; dumps payload_bad_au_r].
Definition msg_dnn : list bytes :=
  ["facsvatar.dnn"; "17"; dumps payload_full].
Definition msg_end : list bytes := ["openface"; EmptyString; "ignored"].
Definition msg_bad_topic : list bytes :=
  [String (ascii_of_nat 255) EmptyString; "17"; dumps payload_full].

Definition cmd_multiplier : list bytes :=
  ["client1"; "multiplier"; dumps payload_multiplier].
Definition cmd_other : list bytes := ["client1"; "window"; "5"].

Definition self0 : FACSvatarMessages env :=
  mkSelf (Some (Socket "tcp://127.0.0.1:5571"))
         (Some (Socket "tcp://127.0.0.1:5570")) None.
Definition self1 : FACSvatarMessages env :=
  mkSelf (pub_socket self0) (sub_socket self0) (Some sd0).

End Sample.


(** ** Shapes of payloads and of confidence values *)

(** Values that [>=] orders with a float: [bool], [int] and [float]. *)
Definition is_number (v : pyval) : bool :=
  match v with
  | PBool _ | PInt _ | PFloat _ => true
  | _ => false
  end.

(** Values on which [in] raises: [None], [bool], [int] and [float]. *)
Definition is_scalar (v : pyval) : bool :=
  match v with
  | PNone | PBool _ | PInt _ | PFloat _ => true
  | _ => false
  end.

Definition is_dict (v : pyval) : bool :=
  match v with
  | PDict _ => true
  | _ => false
  end.

(** What no router command changes in the object: the sockets, whether
    the smoother exists, and its histories. *)
Definition same_but_multiplier {E : PyEnv} (s s' : FACSvatarMessages E) : Prop :=
  pub_socket s' = pub_socket s /\ sub_socket s' = sub_socket s /\
  option_map queues (smooth_data s') = option_map queues (smooth_data s).

(** On the event loop, the smoother exists exactly when the subscriber
    coroutine has started. *)
Definition started_iff_smoother {E : PyEnv} (b : bus E) : Prop :=
  (pub_sub_task b = Pending /\ smooth_data (self_of b) = None) \/
  (pub_sub_task b <> Pending /\ exists sd, smooth_data (self_of b) = Some sd).

(** The number of messages among the events that reach the subscriber. *)
Definition count_sub (evs : list event) : nat :=
  List.length (filter (fun ev => match ev with Sub _ => true | _ => false end) evs).

(** ** Further sample payloads and a failing smoother *)

Module Sample2.

Definition payload_text_confidence : pyval :=
  PDict [("confidence", PStr "high"); ("frame", PInt 7)].
Definition payload_nan : pyval :=
  PDict [("confidence", PFloat S754_nan)].
Definition payload_number : pyval := PInt 5.
Definition payload_list : pyval := PList [PInt 1; PStr "x"].
Definition payload_list_confidence : pyval :=
  PList [PStr "confidence"; PInt 1].

Definition samples : list pyval :=
  Sample.samples ++
  [payload_text_confidence; payload_nan; payload_number; payload_list;
   payload_list_confidence].

Definition loads (text : str) : result pyval :=
  match find (fun v => String.eqb (Sample.dumps v) text) samples with
  | Some v => inr v
  | None => inl JSONDecodeError
  end.

(** A smoother that records each call and fails on stream 1. *)
Definition smooth_failing_pose (data : pyval) (queue_no window_size : nat)
           (steep : spec_float) : M (SmoothData pyval Sample.calls) pyval :=
  fun sd =>
    (mkSmoothData (multiplier sd)
                  (queues sd ++ [(queue_no, window_size, data)]),
     if Nat.eqb queue_no 1 then inl (LibraryError 1) else inr data).

Definition env : PyEnv :=
  mkPyEnv pyval Sample.calls loads Sample.dumps (fun v => inr v)
          (mkSmoothData (PInt 1) []) Sample.smooth.

Definition env_failing : PyEnv :=
  mkPyEnv pyval Sample.calls loads Sample.dumps (fun v => inr v)
          (mkSmoothData (PInt 1) []) smooth_failing_pose.

Definition sd0 : smoother env := SmoothData_new env.
Definition sd0_failing : smoother env_failing := SmoothData_new env_failing.

Definition message (v : pyval) : list bytes :=
  ["openface"; "21"; Sample.dumps v].

End Sample2.

(** ** Proof steps for computations *)

Ltac run_py :=
  unfold bind, lift, ret, raise; simpl.

(** Case analysis along the binds of a computation in hypothesis [H]. *)
Ltac split_binds H :=
  unfold bind, lift, ret, raise in H; simpl in H;
  repeat match type of H with
         | context [match ?x with _ => _ end] =>
           let Hx := fresh "Hx" in
           destruct x eqn:Hx; simpl in H; try discriminate H
         | context [if ?x then _ else _] =>
           let Hx := fresh "Hx" in
           destruct x eqn:Hx; simpl in H; try discriminate H
         end.

(** * Properties *)

(** ** Comparisons with the confidence threshold *)

Lemma SFcompare_antisym (a b : spec_float) :
  SFcompare b a = option_map CompOpp (SFcompare a b).
Proof.
  destruct a as [sa|sa| |sa ma ea], b as [sb|sb| |sb mb eb]; simpl;
    try reflexivity;
    try (destruct sa; reflexivity);
    try (destruct sb; reflexivity);
    try (destruct sa, sb; reflexivity).
  destruct sa, sb; simpl; try reflexivity;
    rewrite (Z.compare_antisym ea eb);
    destruct (ea ?= eb)%Z; simpl; try reflexivity;
    rewrite (Pos.compare_cont_antisym ma mb Eq); simpl;
    try rewrite CompOpp_involutive; reflexivity.
Qed.

Lemma SFltb_not_SFleb (a b : spec_float) :
  SFltb a b = true -> SFleb b a = false.
Proof.
  unfold SFltb, SFleb. rewrite (SFcompare_antisym a b).
  destruct (SFcompare a b) as [[ | | ]|]; simpl; congruence.
Qed.

Lemma below_threshold_fails (c : pyval) :
  below_threshold c -> py_ge_threshold c = inr false.
Proof.
  destruct c; simpl; try contradiction; intros H.
  - now subst.
  - f_equal. apply Z.leb_gt. lia.
  - f_equal. now apply SFltb_not_SFleb.
Qed.

Lemma at_least_threshold_passes (c : pyval) :
  at_least_threshold c -> py_ge_threshold c = inr true.
Proof.
  destruct c; simpl; try contradiction; intros H.
  - now subst.
  - f_equal. apply Z.leb_le. lia.
  - now f_equal.
Qed.

(** The constants are the doubles nearest to the decimals of the source. *)
Lemma confidence_threshold_is_0_8 : rounds_to (8 # 10) confidence_threshold.
Proof.
  split; [lia|]. eexists; split; [reflexivity|]. vm_compute. discriminate.
Qed.

Lemma steep_au_r_is_0_35 : rounds_to (35 # 100) steep_au_r.
Proof.
  split; [lia|]. eexists; split; [reflexivity|]. vm_compute. discriminate.
Qed.

Lemma steep_pose_is_0_2 : rounds_to (2 # 10) steep_pose.
Proof.
  split; [lia|]. eexists; split; [reflexivity|]. vm_compute. discriminate.
Qed.

(** ** Dictionaries *)

Lemma dict_get_set_same (k : str) (v : pyval) (d : dict) :
  dict_get k (dict_set k v d) = Some v.
Proof.
  induction d as [|[k' v'] d IH]; simpl.
  - now rewrite String.eqb_refl.
  - destruct (String.eqb k k') eqn:Hk; simpl; rewrite ?Hk, ?String.eqb_refl; auto.
Qed.

Lemma dict_get_set_other (k k' : str) (v : pyval) (d : dict) :
  k' <> k -> dict_get k' (dict_set k v d) = dict_get k' d.
Proof.
  intros Hne. induction d as [|[k0 v0] d IH]; simpl.
  - apply String.eqb_neq in Hne. now rewrite Hne.
  - destruct (String.eqb k k0) eqn:Hk; simpl.
    + apply String.eqb_eq in Hk. subst k0.
      apply String.eqb_neq in Hne. now rewrite Hne.
    + now rewrite IH.
Qed.

Lemma dict_set_keys (k : str) (v x : pyval) (d : dict) :
  dict_get k d = Some x -> map fst (dict_set k v d) = map fst d.
Proof.
  induction d as [|[k0 v0] d IH]; simpl; [discriminate|].
  destruct (String.eqb k k0) eqn:Hk; simpl.
  - apply String.eqb_eq in Hk. now subst.
  - intros H. now rewrite IH.
Qed.

Lemma dict_mem_get (k : str) (d : dict) :
  dict_mem k d = match dict_get k d with Some _ => true | None => false end.
Proof. reflexivity. Qed.

(** ** [sorted] and [dict] on the items of a dictionary *)

Lemma ltb_false_leb (a b : str) : String.ltb a b = false -> String.leb b a = true.
Proof.
  unfold String.ltb, String.leb. rewrite (String.compare_antisym b a).
  destruct (String.compare a b); simpl; congruence.
Qed.

Lemma ltb_true_leb (a b : str) : String.ltb a b = true -> String.leb a b = true.
Proof.
  unfold String.ltb, String.leb. destruct (String.compare a b); congruence.
Qed.

Lemma insert_item_perm (kv : str * pyval) (l : list (str * pyval)) :
  Permutation (kv :: l) (insert_item kv l).
Proof.
  induction l as [|kv' l IH]; simpl; [reflexivity|].
  destruct (String.ltb (fst kv) (fst kv')); [reflexivity|].
  rewrite perm_swap. now constructor.
Qed.

Lemma insert_item_hd (kv x : str * pyval) (l : list (str * pyval)) :
  key_le x kv -> HdRel key_le x l -> HdRel key_le x (insert_item kv l).
Proof.
  intros Hx Hl. destruct l as [|kv' l]; simpl.
  - now constructor.
  - destruct (String.ltb (fst kv) (fst kv')); constructor; auto.
    now inversion Hl.
Qed.

Lemma insert_item_sorted (kv : str * pyval) (l : list (str * pyval)) :
  Sorted key_le l -> Sorted key_le (insert_item kv l).
Proof.
  induction 1 as [|kv' l Hs IH Hhd]; simpl.
  - repeat constructor.
  - destruct (String.ltb (fst kv) (fst kv')) eqn:Hlt.
    + constructor; [now constructor|].
      constructor. now apply ltb_true_leb.
    + constructor; [exact IH|].
      apply insert_item_hd; [|exact Hhd]. now apply ltb_false_leb.
Qed.

Lemma fold_insert_sorted (l acc : list (str * pyval)) :
  Sorted key_le acc ->
  Sorted key_le (fold_left (fun a kv => insert_item kv a) l acc).
Proof.
  revert acc. induction l as [|kv l IH]; simpl; intros acc Hacc; [exact Hacc|].
  apply IH. now apply insert_item_sorted.
Qed.

Lemma fold_insert_perm (l acc : list (str * pyval)) :
  Permutation (l ++ acc) (fold_left (fun a kv => insert_item kv a) l acc).
Proof.
  revert acc. induction l as [|kv l IH]; simpl; intros acc; [reflexivity|].
  rewrite <- IH. rewrite <- insert_item_perm.
  now rewrite Permutation_middle.
Qed.

Lemma sorted_by_key_sorted (l : list (str * pyval)) :
  Sorted key_le (sorted_by_key l).
Proof. apply fold_insert_sorted. constructor. Qed.

Lemma sorted_by_key_perm (l : list (str * pyval)) :
  Permutation l (sorted_by_key l).
Proof.
  unfold sorted_by_key. rewrite <- fold_insert_perm. now rewrite app_nil_r.
Qed.




(** ** The subscriber loop, one message at a time *)

Section Classifier.
Context (E : PyEnv).

Lemma iteration_terminal (sd : smoother E) (topic : bytes) (rest : list bytes) :
  pub_sub_iteration E (topic :: EmptyString :: rest) sd =
  (sd, inr (Some [topic; EmptyString; EmptyString])).
Proof. reflexivity. Qed.

Lemma iteration_cases (sd : smoother E) msg :
  pub_sub_iteration E msg sd =
  match index msg 1 with
  | inl e => (sd, inl e)
  | inr frame =>
    if String.eqb frame EmptyString then
      match index msg 0 with
      | inl e => (sd, inl e)
      | inr topic => (sd, inr (Some [topic; EmptyString; EmptyString]))
      end
    else
      match index msg 2 with
      | inl e => (sd, inl e)
      | inr payload =>
        match decode payload with
        | inl e => (sd, inl e)
        | inr text =>
          match json_loads E text with
          | inl e => (sd, inl e)
          | inr data =>
            match confidence_ok data with
            | inl e => (sd, inl e)
            | inr true => forward E msg data sd
            | inr false => (sd, inr None)
            end
          end
        end
      end
  end.
Proof.
  unfold pub_sub_iteration. run_py.
  destruct (index msg 1) as [e|frame]; [reflexivity|].
  destruct (String.eqb frame EmptyString); simpl.
  - destruct (index msg 0); reflexivity.
  - destruct (index msg 2) as [e|payload]; [reflexivity|].
    destruct (decode payload) as [e|text]; [reflexivity|].
    destruct (json_loads E text) as [e|data]; [reflexivity|].
    destruct (confidence_ok data) as [e|[|]]; reflexivity.
Qed.

Lemma iteration_parsed (sd : smoother E) msg frame data :
  parsed E msg frame data ->
  pub_sub_iteration E msg sd =
  match confidence_ok data with
  | inl e => (sd, inl e)
  | inr true => forward E msg data sd
  | inr false => (sd, inr None)
  end.
Proof.
  intros (Hf & Hne & payload & text & Hp & Hd & Hl).
  unfold pub_sub_iteration. run_py. rewrite Hf.
  apply String.eqb_neq in Hne. rewrite Hne. simpl.
  rewrite Hp, Hd, Hl. destruct (confidence_ok data) as [e|[|]]; reflexivity.
Qed.

Lemma forward_sends (sd sd' : smoother E) msg data o :
  forward E msg data sd = (sd', inr o) ->
  exists topic frame data',
    index msg 0 = inr topic /\ index msg 1 = inr frame /\
    o = Some [topic; frame; json_dumps E data'].
Proof.
  unfold forward. intros H. split_binds H.
  all: inversion H; subst; eauto 7.
Qed.

Lemma forward_extra (sd : smoother E) a b c extra data :
  forward E (a :: b :: c :: extra) data sd = forward E [a; b; c] data sd.
Proof. reflexivity. Qed.

Lemma iteration_extra (sd : smoother E) a b c extra :
  pub_sub_iteration E (a :: b :: c :: extra) sd =
  pub_sub_iteration E [a; b; c] sd.
Proof. reflexivity. Qed.

Lemma confidence_ok_dict (d : dict) :
  confidence_ok (PDict d) =
  match dict_get "confidence" d with
  | None => inr true
  | Some c => py_ge_threshold c
  end.
Proof.
  unfold confidence_ok, py_contains, py_getitem, dict_mem.
  destruct (dict_get "confidence" d); reflexivity.
Qed.

End Classifier.

(** ** The subscriber loop against its specification *)

(** C2: a message whose frame part is empty is answered by exactly the
    terminal message (topic, empty, empty), whatever follows the frame
    part (a payload of any content, or none) and whatever the JSON
    decoder of the environment does: no decoding takes place, no error is
    raised, the smoother is untouched and the loop goes on with the next
    message. *)
Theorem C2_terminal_message (E : PyEnv) (sd : smoother E) (topic : bytes)
        (rest : list bytes) (inbox : list (list bytes)) :
  pub_sub_iteration E (topic :: EmptyString :: rest) sd =
  (sd, inr (Some [topic; EmptyString; EmptyString])) /\
  pub_sub_loop E sd ((topic :: EmptyString :: rest) :: inbox) =
  publish E (Some [topic; EmptyString; EmptyString]) (pub_sub_loop E sd inbox).
Proof. split; reflexivity. Qed.

(** C3, as the code has it: on a non-terminal message whose parsed payload
    is a mapping, a [confidence] below 0.8 leaves the iteration without
    an outbound message and without an error; with [confidence] absent or
    at least 0.8 the message is not dropped: the iteration is the
    forwarding step, which ends in exactly one outbound message or in an
    exception. *)
Theorem C3_confidence_gate (E : PyEnv) (sd : smoother E) (msg : list bytes)
        (frame : bytes) (d : dict) :
  parsed E msg frame (PDict d) ->
  (forall c, dict_get "confidence" d = Some c -> below_threshold c ->
             pub_sub_iteration E msg sd = (sd, inr None)) /\
  (dict_get "confidence" d = None \/
   (exists c, dict_get "confidence" d = Some c /\ at_least_threshold c) ->
   pub_sub_iteration E msg sd = forward E msg (PDict d) sd /\
   forall sd' o, forward E msg (PDict d) sd = (sd', inr o) ->
                 exists out, o = Some out).
Proof.
  intros Hp. rewrite (iteration_parsed E sd msg frame (PDict d) Hp).
  rewrite confidence_ok_dict. split.
  - intros c Hc Hlow. rewrite Hc.
    now rewrite (below_threshold_fails c Hlow).
  - intros Hok. split.
    + destruct Hok as [Hnone | (c & Hc & Hge)].
      * now rewrite Hnone.
      * rewrite Hc. now rewrite (at_least_threshold_passes c Hge).
    + intros sd' o Hfw.
      destruct (forward_sends E sd sd' msg (PDict d) o Hfw)
        as (t & f & data' & _ & _ & Ho).
      eauto.
Qed.

Lemma C3_confidence_gate_witness :
  parsed Sample.env Sample.msg_low "18" Sample.payload_low /\
  pub_sub_iteration Sample.env Sample.msg_low Sample.sd0 = (Sample.sd0, inr None).
Proof.
  assert (Hp : parsed Sample.env Sample.msg_low "18" Sample.payload_low).
  { split; [reflexivity|]. split; [discriminate|].
    exists (Sample.dumps Sample.payload_low), (Sample.dumps Sample.payload_low).
    repeat split; vm_compute; reflexivity. }
  split; [exact Hp|].
  apply (proj1 (C3_confidence_gate Sample.env Sample.sd0 Sample.msg_low "18" _ Hp)
               (PFloat Sample.half)); reflexivity.
Defined.

(** Two messages that pass the confidence test and are not forwarded:
    one without [confidence] whose [au_r] is a number, so that [.items()]
    raises, and one with [confidence] 1 whose topic does not decode.  In
    both the iteration ends in an exception and nothing is sent. *)
Lemma C3_counterexample :
  (parsed Sample.env Sample.msg_bad_au_r "19" Sample.payload_bad_au_r /\
   py_contains "confidence" Sample.payload_bad_au_r = inr false /\
   pub_sub_iteration Sample.env Sample.msg_bad_au_r Sample.sd0 =
   (Sample.sd0, inl AttributeError)) /\
  (parsed Sample.env Sample.msg_bad_topic "17" Sample.payload_full /\
   py_getitem Sample.payload_full "confidence" = inr (PInt 1) /\
   at_least_threshold (PInt 1) /\
   pub_sub_iteration Sample.env Sample.msg_bad_topic Sample.sd0 =
   (Sample.sd0, inl UnicodeDecodeError)).
Proof.
  split; (split; [|repeat split; try (vm_compute; reflexivity)]).
  - split; [reflexivity|]. split; [discriminate|].
    exists (Sample.dumps Sample.payload_bad_au_r), (Sample.dumps Sample.payload_bad_au_r).
    repeat split; vm_compute; reflexivity.
  - split; [reflexivity|]. split; [discriminate|].
    exists (Sample.dumps Sample.payload_full), (Sample.dumps Sample.payload_full).
    repeat split; vm_compute; reflexivity.
  - simpl. lia.
Qed.

(** What function mode does with the parts of a message: an outbound
    message has exactly three parts, the topic, the frame and a payload,
    and it is the one the first three inbound parts alone give. *)
Theorem C4_three_parts (E : PyEnv) (sd sd' : smoother E) (msg out : list bytes) :
  pub_sub_iteration E msg sd = (sd', inr (Some out)) ->
  (exists topic frame payload,
      index msg 0 = inr topic /\ index msg 1 = inr frame /\
      out = [topic; frame; payload]) /\
  pub_sub_iteration E (firstn 3 msg) sd = (sd', inr (Some out)).
Proof.
  intros H. split.
  - rewrite iteration_cases in H.
    destruct (index msg 1) as [e|frame] eqn:H1; [discriminate H|].
    destruct (String.eqb frame EmptyString) eqn:Hb.
    + destruct (index msg 0) as [e|topic]; [discriminate H|].
      inversion H; subst. apply String.eqb_eq in Hb. subst frame.
      exists topic, EmptyString, EmptyString. repeat split.
    + destruct (index msg 2) as [e|payload]; [discriminate H|].
      destruct (decode payload) as [e|text]; [discriminate H|].
      destruct (json_loads E text) as [e|data]; [discriminate H|].
      destruct (confidence_ok data) as [e|[|]]; try discriminate H.
      destruct (forward_sends E sd sd' msg data _ H)
        as (t & f & data' & Ht & Hf & Ho).
      inversion Ho; subst. rewrite H1 in Hf. inversion Hf; subst.
      exists t, f, (json_dumps E data'). repeat split; assumption.
  - destruct msg as [|a [|b [|c extra]]]; exact H.
Qed.

Lemma C4_three_parts_witness :
  pub_sub_iteration Sample.env Sample.msg_extra Sample.sd0 =
  pub_sub_iteration Sample.env Sample.msg_full Sample.sd0 /\
  exists sd' out,
    pub_sub_iteration Sample.env (firstn 3 Sample.msg_extra) Sample.sd0 =
    (sd', inr (Some out)) /\ List.length out = 3%nat.
Proof.
  split; [reflexivity|].
  eexists. eexists. split.
  - apply (C4_three_parts Sample.env Sample.sd0 _ Sample.msg_extra _).
    vm_compute. reflexivity.
  - reflexivity.
Defined.

(** C4, at an input where the code departs from it: a forwarded message
    with a fourth part [data2], which the module's docstring lists among
    the message parts and which the proxy branch of [start] passes on.
    Function mode publishes the three parts it publishes for the same
    message without the fourth part; [data2] is not in the outbound
    message. *)
Theorem C4_fourth_part_dropped :
  index Sample.msg_extra 3 = inr "data2" /\
  pub_sub_iteration Sample.env Sample.msg_extra Sample.sd0 =
  pub_sub_iteration Sample.env Sample.msg_full Sample.sd0 /\
  exists sd' out,
    pub_sub_iteration Sample.env Sample.msg_extra Sample.sd0 =
    (sd', inr (Some out)) /\
    List.length out = 3%nat /\ ~ In "data2" out.
Proof.
  split; [reflexivity|]. split; [reflexivity|].
  eexists. eexists. split; [vm_compute; reflexivity|].
  split; [reflexivity|].
  simpl. intros [H|[H|[H|[]]]]; discriminate H.
Qed.

Section Smoothing.
Context (E : PyEnv).

Lemma forward_topic (sd : smoother E) msg data topic t frame :
  index msg 0 = inr topic -> decode topic = inr t ->
  index msg 1 = inr frame ->
  forward E msg data sd =
  match (if negb (startswith t "facsvatar")
         then bind (smooth_au_r E data) (smooth_pose E)
         else ret data) sd with
  | (sd', inl e) => (sd', inl e)
  | (sd', inr data') => (sd', inr (Some [topic; frame; json_dumps E data']))
  end.
Proof.
  intros H0 Hd H1. unfold forward. unfold bind at 1 2, lift at 1 2.
  rewrite H0, Hd. unfold bind at 1.
  destruct ((if negb (startswith t "facsvatar")
             then bind (smooth_au_r E data) (smooth_pose E)
             else ret data) sd) as [sd' [e|data']]; [reflexivity|].
  unfold bind, lift, ret. now rewrite H1.
Qed.

Lemma smooth_au_r_dict (sd : smoother E) (d : dict) :
  smooth_au_r E (PDict d) sd =
  match dict_get "au_r" d with
  | None => (sd, inr (PDict d))
  | Some (PDict a) =>
    match smooth_func E (PDict (dict_of_items (sorted_by_key a)))
                      0 4 steep_au_r sd with
    | (sd1, inl e) => (sd1, inl e)
    | (sd1, inr r) => (sd1, inr (PDict (dict_set "au_r" r d)))
    end
  | Some _ => (sd, inl AttributeError)
  end.
Proof.
  unfold smooth_au_r, py_contains, py_getitem, dict_mem. run_py.
  destruct (dict_get "au_r" d) as [[]|]; reflexivity.
Qed.

Lemma smooth_pose_dict (sd : smoother E) (d : dict) :
  smooth_pose E (PDict d) sd =
  match dict_get "pose" d with
  | None => (sd, inr (PDict d))
  | Some p =>
    match smooth_func E p 1 4 steep_pose sd with
    | (sd1, inl e) => (sd1, inl e)
    | (sd1, inr r) => (sd1, inr (PDict (dict_set "pose" r d)))
    end
  end.
Proof.
  unfold smooth_pose, py_contains, py_getitem, dict_mem. run_py.
  destruct (dict_get "pose" d) as [p|]; reflexivity.
Qed.

Lemma same_but_smoothed_refl (d : dict) : same_but_smoothed d d.
Proof. split; reflexivity. Qed.

Lemma same_but_smoothed_set (d d' : dict) (k : str) (x r : pyval) :
  k = "au_r" \/ k = "pose" ->
  same_but_smoothed d d' -> dict_get k d' = Some x ->
  same_but_smoothed d (dict_set k r d').
Proof.
  intros Hk [Hkeys Hget] Hx. split.
  - now rewrite (dict_set_keys k r x d' Hx).
  - intros k' Ha Hp. rewrite dict_get_set_other; [now apply Hget|].
    destruct Hk; subst; assumption.
Qed.

Lemma smooth_fields_frame (sd sd' : smoother E) (d : dict) data' :
  bind (smooth_au_r E (PDict d)) (smooth_pose E) sd = (sd', inr data') ->
  exists d', data' = PDict d' /\ same_but_smoothed d d'.
Proof.
  unfold bind. rewrite smooth_au_r_dict.
  destruct (dict_get "au_r" d) as [a|] eqn:Ha.
  - destruct a; try discriminate.
    destruct (smooth_func E _ 0 4 steep_au_r sd) as [sd1 [e|r]];
      [discriminate|].
    rewrite smooth_pose_dict.
    assert (H1 : same_but_smoothed d (dict_set "au_r" r d)).
    { eapply same_but_smoothed_set; eauto using same_but_smoothed_refl. }
    destruct (dict_get "pose" (dict_set "au_r" r d)) as [p|] eqn:Hp.
    + destruct (smooth_func E p 1 4 steep_pose sd1) as [sd2 [e|r2]];
        [discriminate|].
      intros H. inversion H; subst. eexists; split; [reflexivity|].
      eapply same_but_smoothed_set; eauto.
    + intros H. inversion H; subst. eauto.
  - rewrite smooth_pose_dict.
    destruct (dict_get "pose" d) as [p|] eqn:Hp.
    + destruct (smooth_func E p 1 4 steep_pose sd) as [sd2 [e|r2]];
        [discriminate|].
      intros H. inversion H; subst. eexists; split; [reflexivity|].
      eapply same_but_smoothed_set; eauto using same_but_smoothed_refl.
    + intros H. inversion H; subst.
      eauto using same_but_smoothed_refl.
Qed.

End Smoothing.




(** C6, as the code has it: a non-terminal message that passed the
    confidence test and whose topic decodes as UTF-8 and starts with
    [facsvatar] is sent on with the parsed payload re-encoded as it is;
    the smoother is not called and its state is unchanged. *)
Theorem C6_reserved_topic (E : PyEnv) (sd : smoother E) (msg : list bytes)
        (frame topic : bytes) (t : str) (data : pyval) :
  parsed E msg frame data ->
  confidence_ok data = inr true ->
  index msg 0 = inr topic -> decode topic = inr t ->
  startswith t "facsvatar" = true ->
  pub_sub_iteration E msg sd =
  (sd, inr (Some [topic; frame; json_dumps E data])).
Proof.
  intros Hp Hc H0 Hd Hs.
  assert (H1 : index msg 1 = inr frame) by apply Hp.
  rewrite (iteration_parsed E sd msg frame data Hp), Hc.
  rewrite (forward_topic E sd msg data topic t frame H0 Hd H1), Hs.
  reflexivity.
Qed.

Lemma C6_reserved_topic_witness :
  parsed Sample.env Sample.msg_dnn "17" Sample.payload_full /\
  pub_sub_iteration Sample.env Sample.msg_dnn Sample.sd0 =
  (Sample.sd0, inr (Some ["facsvatar.dnn"; "17"; Sample.dumps Sample.payload_full])).
Proof.
  assert (Hp : parsed Sample.env Sample.msg_dnn "17" Sample.payload_full).
  { split; [reflexivity|]. split; [discriminate|].
    exists (Sample.dumps Sample.payload_full), (Sample.dumps Sample.payload_full).
    repeat split; vm_compute; reflexivity. }
  split; [exact Hp|].
  exact (C6_reserved_topic Sample.env Sample.sd0 Sample.msg_dnn "17"
           "facsvatar.dnn" "facsvatar.dnn" Sample.payload_full Hp
           eq_refl eq_refl eq_refl eq_refl).
Defined.

(** A non-terminal message that passes the confidence test and whose
    topic begins with the bytes of [facsvatar] but is not UTF-8: line 129
    raises at [.decode], and the message is not forwarded. *)
Lemma C6_counterexample :
  let topic := ("facsvatar" ++ String (ascii_of_nat 255) EmptyString)%string in
  let msg := [topic; "17"; Sample.dumps Sample.payload_full] in
  parsed Sample.env msg "17" Sample.payload_full /\
  confidence_ok Sample.payload_full = inr true /\
  index msg 0 = inr topic /\
  prefix "facsvatar" topic = true /\
  pub_sub_iteration Sample.env msg Sample.sd0 =
  (Sample.sd0, inl UnicodeDecodeError) /\
  ~ (exists sd' out,
        pub_sub_iteration Sample.env msg Sample.sd0 = (sd', inr (Some out))).
Proof.
  cbv zeta. split.
  { split; [reflexivity|]. split; [discriminate|].
    exists (Sample.dumps Sample.payload_full), (Sample.dumps Sample.payload_full).
    repeat split; vm_compute; reflexivity. }
  split; [vm_compute; reflexivity|]. split; [reflexivity|].
  split; [vm_compute; reflexivity|]. split; [vm_compute; reflexivity|].
  intros (sd' & out & H). vm_compute in H. discriminate H.
Qed.

(** C9: when a non-terminal message with a mapping as payload is
    forwarded, the outbound payload is the encoding of a mapping with the
    same keys in the same order, in which every key other than [au_r] and
    [pose] has the value it had in the inbound payload. *)
Theorem C9_other_keys_unchanged (E : PyEnv) (sd sd' : smoother E)
        (msg out : list bytes) (frame : bytes) (d : dict) :
  parsed E msg frame (PDict d) ->
  pub_sub_iteration E msg sd = (sd', inr (Some out)) ->
  exists topic d',
    out = [topic; frame; json_dumps E (PDict d')] /\
    map fst d' = map fst d /\
    forall k, k <> "au_r" -> k <> "pose" -> dict_get k d' = dict_get k d.
Proof.
  intros Hp. assert (H1 : index msg 1 = inr frame) by apply Hp.
  rewrite (iteration_parsed E sd msg frame (PDict d) Hp).
  destruct (confidence_ok (PDict d)) as [e|[|]]; try discriminate.
  destruct (index msg 0) as [e|topic] eqn:H0.
  { unfold forward, bind, lift. rewrite H0. discriminate. }
  destruct (decode topic) as [e|t] eqn:Hd.
  { unfold forward, bind, lift. rewrite H0, Hd. discriminate. }
  rewrite (forward_topic E sd msg (PDict d) topic t frame H0 Hd H1).
  destruct (negb (startswith t "facsvatar")).
  - destruct (bind (smooth_au_r E (PDict d)) (smooth_pose E) sd)
      as [sd1 [e|data']] eqn:Hsm; [discriminate|].
    destruct (smooth_fields_frame E sd sd1 d data' Hsm) as (d' & -> & Hk & Hg).
    intros H. inversion H; subst. eauto.
  - unfold ret. intros H. inversion H; subst.
    exists topic, d. auto.
Qed.

Lemma C9_other_keys_unchanged_witness :
  parsed Sample.env Sample.msg_full "17" Sample.payload_full /\
  exists topic d',
    snd (pub_sub_iteration Sample.env Sample.msg_full Sample.sd0) =
    inr (Some [topic; "17"; Sample.dumps (PDict d')]) /\
    dict_get "frame" d' = Some (PInt 7) /\
    dict_get "confidence" d' = Some (PInt 1).
Proof.
  assert (Hp : parsed Sample.env Sample.msg_full "17" Sample.payload_full).
  { split; [reflexivity|]. split; [discriminate|].
    exists (Sample.dumps Sample.payload_full), (Sample.dumps Sample.payload_full).
    repeat split; vm_compute; reflexivity. }
  split; [exact Hp|].
  assert (Hrun : exists sd' out,
             pub_sub_iteration Sample.env Sample.msg_full Sample.sd0 =
             (sd', inr (Some out))).
  { eexists. eexists. vm_compute. reflexivity. }
  destruct Hrun as (sd' & out & Hrun).
  destruct (C9_other_keys_unchanged Sample.env Sample.sd0 sd' Sample.msg_full
              out "17" _ Hp Hrun) as (topic & d' & Hout & _ & Hget).
  exists topic, d'. split; [|split].
  - rewrite Hrun. simpl snd. now rewrite Hout.
  - now rewrite Hget.
  - now rewrite Hget.
Defined.

(** ** The two loops and their errors *)

Section Loops.
Context (E : PyEnv).

(** An exception in one iteration ends [pub_sub_function]: nothing
    after it is read. *)
Lemma pub_sub_loop_raises (sd sd' : smoother E) msg e inbox :
  pub_sub_iteration E msg sd = (sd', inl e) ->
  pub_sub_loop E sd (msg :: inbox) = mkRun sd' [] [e] false.
Proof. intros H. simpl. now rewrite H. Qed.

Lemma pub_sub_loop_goes_on (sd sd' : smoother E) msg o inbox :
  pub_sub_iteration E msg sd = (sd', inr o) ->
  pub_sub_loop E sd (msg :: inbox) = publish E o (pub_sub_loop E sd' inbox).
Proof. intros H. simpl. now rewrite H. Qed.

(** [set_parameters] reads every command, whatever errors occur. *)
Lemma set_parameters_app (self : FACSvatarMessages E) (c1 c2 : list (list bytes)) :
  set_parameters E self (c1 ++ c2) =
  (fst (set_parameters E (fst (set_parameters E self c1)) c2),
   snd (set_parameters E self c1) ++
   snd (set_parameters E (fst (set_parameters E self c1)) c2)).
Proof.
  revert self. induction c1 as [|msg c1 IH]; intros self; simpl.
  - now destruct (set_parameters E self c2).
  - destruct (set_parameters_iteration E msg self) as [self' [e|u]].
    + rewrite IH. destruct (set_parameters E self' c1) as [s1 l1]. simpl.
      reflexivity.
    + apply IH.
Qed.

(** On the event loop an exception in the subscriber coroutine leaves
    the router running, and the router's own exceptions leave both
    tasks as they are. *)
Lemma handle_rout_keeps_tasks (b : bus E) msg :
  pub_sub_task (handle E b (Rout msg)) = pub_sub_task b /\
  sent (handle E b (Rout msg)) = sent b.
Proof.
  simpl. destruct (set_parameters_iteration E msg (self_of b)) as [s [e|u]];
    split; reflexivity.
Qed.

Lemma handle_sub_returned (b : bus E) msg :
  pub_sub_task b = Returned -> handle E b (Sub msg) = b.
Proof. intros H. simpl. now rewrite H. Qed.

Lemma set_multiplier_without_smoother (self : FACSvatarMessages E) data :
  smooth_data self = None ->
  exists e, set_multiplier E data self = (self, inl e) /\
            forall text v a,
              decode data = inr text -> json_loads E text = inr v ->
              np_array E v = inr a -> e = AttributeError.
Proof.
  intros Hn. unfold set_multiplier, assign_multiplier. run_py.
  destruct (decode data) as [e|text] eqn:Hd.
  { exists e. split; [reflexivity|]. intros; congruence. }
  destruct (json_loads E text) as [e|v] eqn:Hl.
  { exists e. split; [reflexivity|].
    intros text' v' a H H2 _. inversion H; subst. congruence. }
  destruct (np_array E v) as [e|a] eqn:Ha.
  { exists e. split; [reflexivity|].
    intros text' v' a H H2 H3. inversion H; subst.
    rewrite Hl in H2. inversion H2; subst. congruence. }
  rewrite Hn. exists AttributeError. split; reflexivity.
Qed.

Lemma iteration_without_smoother (self : FACSvatarMessages E) msg :
  smooth_data self = None ->
  fst (set_parameters_iteration E msg self) = self.
Proof.
  intros Hn. destruct msg as [|a [|b [|c [|x r]]]]; try reflexivity.
  unfold set_parameters_iteration. run_py.
  destruct (decode b) as [e|t]; [reflexivity|].
  destruct (startswith t "multiplier"); [|reflexivity].
  destruct (set_multiplier_without_smoother self c Hn) as (e & -> & _).
  reflexivity.
Qed.

(** Only [Begin] creates the smoother. *)
Lemma no_smoother_before_begin (b : bus E) (evs : list event) :
  ~ In Begin evs ->
  smooth_data (self_of b) = None -> pub_sub_task b = Pending ->
  smooth_data (self_of (run_events E b evs)) = None /\
  pub_sub_task (run_events E b evs) = Pending /\
  sent (run_events E b evs) = sent b.
Proof.
  unfold run_events. revert b.
  induction evs as [|ev evs IH]; intros b Hnb Hsd Hpt; simpl; [auto|].
  assert (Hev : ev <> Begin) by (intros ->; apply Hnb; now left).
  assert (Hevs : ~ In Begin evs) by (intros H; apply Hnb; now right).
  destruct ev as [|msg|msg]; [congruence| |].
  - simpl. rewrite Hpt. now apply IH.
  - pose proof (iteration_without_smoother (self_of b) msg Hsd) as Hfst.
    simpl.
    destruct (set_parameters_iteration E msg (self_of b)) as [s [e|u]];
      simpl in Hfst; subst s.
    + now destruct (IH (mkBus (self_of b) (pub_sub_task b) (sent b)
                              (errors b ++ [e])) Hevs Hsd Hpt) as (A & B & C).
    + now destruct (IH (mkBus (self_of b) (pub_sub_task b) (sent b)
                              (errors b)) Hevs Hsd Hpt) as (A & B & C).
Qed.

End Loops.

(** C1, at an input where the code departs from it: a message whose
    payload is no JSON text, followed by a good message.  The good
    message alone is smoothed and published; after the bad one the
    subscriber coroutine has logged the error and returned, and the good
    message is never read.  On the event loop the router still handles
    its commands afterwards. *)
Theorem C1_pub_sub_function_returns_on_error :
  let bad := ["openface"; "16"; "{"] in
  published (pub_sub_function Sample.env [Sample.msg_full]) <> [] /\
  listening (pub_sub_function Sample.env [Sample.msg_full]) = true /\
  pub_sub_function Sample.env [bad; Sample.msg_full] =
  mkRun Sample.sd0 [] [JSONDecodeError] false /\
  let b := run_events Sample.env
             (fresh_bus Sample.env (Socket "pub") (Socket "sub"))
             [Begin; Sub bad; Sub Sample.msg_full; Rout Sample.cmd_multiplier] in
  pub_sub_task b = Returned /\ sent b = [] /\
  errors b = [JSONDecodeError] /\
  option_map multiplier (smooth_data (self_of b)) =
  Some Sample.payload_multiplier.
Proof.
  cbv zeta. split; [vm_compute; discriminate|].
  repeat split; vm_compute; reflexivity.
Qed.

(** C7, as the code has it: for a three-part command whose topic decodes
    and starts with [multiplier], when the smoother object exists and the
    data decodes to a value [np.array] accepts, that array becomes the
    multiplier whatever the previous one was, the histories being kept;
    for a three-part command whose topic decodes and does not start with
    [multiplier], the object is unchanged and no exception is raised. *)
Theorem C7_router_command (E : PyEnv) (self : FACSvatarMessages E)
        (id_dealer topic data : bytes) (t : str) :
  decode topic = inr t ->
  (startswith t "multiplier" = true ->
   forall text v a sd,
     decode data = inr text -> json_loads E text = inr v ->
     np_array E v = inr a -> smooth_data self = Some sd ->
     set_parameters_iteration E [id_dealer; topic; data] self =
     (mkSelf (pub_socket self) (sub_socket self)
             (Some (mkSmoothData a (queues sd))), inr tt)) /\
  (startswith t "multiplier" = false ->
   set_parameters_iteration E [id_dealer; topic; data] self = (self, inr tt)).
Proof.
  intros Hd. unfold set_parameters_iteration. run_py. rewrite Hd. split.
  - intros Hs text v a sd Ht Hv Ha Hsd. rewrite Hs.
    unfold set_multiplier, assign_multiplier. run_py.
    now rewrite Ht, Hv, Ha, Hsd.
  - intros Hs. now rewrite Hs.
Qed.

Lemma C7_router_command_witness :
  decode "multiplier" = inr "multiplier" /\
  set_parameters_iteration Sample.env Sample.cmd_multiplier Sample.self1 =
  (mkSelf (E := Sample.env) (pub_socket Sample.self1) (sub_socket Sample.self1)
          (Some (mkSmoothData Sample.payload_multiplier [])), inr tt) /\
  set_parameters_iteration Sample.env Sample.cmd_other Sample.self1 =
  (Sample.self1, inr tt).
Proof.
  split; [reflexivity|]. split.
  - apply (proj1 (C7_router_command Sample.env Sample.self1 "client1"
                    "multiplier" (Sample.dumps Sample.payload_multiplier)
                    "multiplier" eq_refl)
                 eq_refl (Sample.dumps Sample.payload_multiplier)
                 Sample.payload_multiplier Sample.payload_multiplier
                 Sample.sd0); vm_compute; reflexivity.
  - exact (proj2 (C7_router_command Sample.env Sample.self1 "client1"
                    "window" "5" "window" eq_refl) eq_refl).
Defined.

(** A multiplier command that installs nothing (there is no smoother
    yet), and a command with an undecodable topic, for which an exception
    is raised. *)
Lemma C7_counterexample :
  startswith "multiplier" "multiplier" = true /\
  set_parameters_iteration Sample.env Sample.cmd_multiplier Sample.self0 =
  (Sample.self0, inl AttributeError) /\
  smooth_data Sample.self0 = None /\
  set_parameters_iteration Sample.env
    ["client1"; String (ascii_of_nat 255) EmptyString; "5"] Sample.self1 =
  (Sample.self1, inl UnicodeDecodeError).
Proof. repeat split. Qed.

(** C8: when the publisher socket or the subscriber socket is missing,
    [start] exits and enters neither mode; when both are there it enters
    the mode selected by its argument: the event loop with the given
    coroutines for a non-empty list, the proxy otherwise. *)
Theorem C8_start_checks_sockets (E : PyEnv) (self : FACSvatarMessages E)
        (async_func_list : option (list coroutine)) :
  (pub_socket self = None \/ sub_socket self = None ->
   start E self async_func_list = SystemExit) /\
  (forall pub sub,
      pub_socket self = Some pub -> sub_socket self = Some sub ->
      match async_func_list with
      | Some (f :: fs) => start E self async_func_list = RunUntilComplete (f :: fs)
      | _ => start E self async_func_list = ZmqProxy pub sub
      end).
Proof.
  unfold start. split.
  - intros [H|H]; rewrite H; [reflexivity|].
    now destruct (pub_socket self).
  - intros pub sub Hp Hs. rewrite Hp, Hs.
    destruct async_func_list as [[|f fs]|]; reflexivity.
Qed.

Lemma C8_start_checks_sockets_witness :
  start Sample.env (mkSelf None (sub_socket Sample.self0) None)
        (Some [Pub_sub_function "trailing_moving_average"; Set_parameters]) =
  SystemExit /\
  start Sample.env Sample.self0
        (Some [Pub_sub_function "trailing_moving_average"; Set_parameters]) =
  RunUntilComplete [Pub_sub_function "trailing_moving_average"; Set_parameters] /\
  start Sample.env Sample.self0 None =
  ZmqProxy (Socket "tcp://127.0.0.1:5571") (Socket "tcp://127.0.0.1:5570").
Proof.
  split; [|split].
  - apply (proj1 (C8_start_checks_sockets Sample.env _ _)). now left.
  - exact (proj2 (C8_start_checks_sockets Sample.env Sample.self0
                    (Some [Pub_sub_function "trailing_moving_average";
                           Set_parameters]))
                 _ _ eq_refl eq_refl).
  - exact (proj2 (C8_start_checks_sockets Sample.env Sample.self0 None)
                 _ _ eq_refl eq_refl).
Defined.

(** C10: the smoother object is created by the first step of
    [pub_sub_function] only, so after any events that do not include
    that step the object has no [smooth_data]; a multiplier command
    received then raises (an [AttributeError] once its data has decoded),
    leaves the object, the tasks and the published messages as they
    were, is logged, and the router goes on with the next command. *)
Theorem C10_multiplier_before_begin (E : PyEnv) (pub sub : socket)
        (evs : list event) (id_dealer topic data : bytes) (t : str) :
  ~ In Begin evs ->
  decode topic = inr t -> startswith t "multiplier" = true ->
  let b := run_events E (fresh_bus E pub sub) evs in
  let cmd := [id_dealer; topic; data] in
  smooth_data (self_of b) = None /\
  exists e,
    handle E b (Rout cmd) =
    mkBus (self_of b) (pub_sub_task b) (sent b) (errors b ++ [e]) /\
    (forall text v a,
        decode data = inr text -> json_loads E text = inr v ->
        np_array E v = inr a -> e = AttributeError) /\
    (forall rest,
        set_parameters E (self_of b) (cmd :: rest) =
        (fst (set_parameters E (self_of b) rest),
         e :: snd (set_parameters E (self_of b) rest))).
Proof.
  intros Hnb Hd Hs b cmd.
  destruct (no_smoother_before_begin E (fresh_bus E pub sub) evs Hnb
              eq_refl eq_refl) as (Hnone & _ & _).
  fold b in Hnone. split; [exact Hnone|].
  destruct (set_multiplier_without_smoother E (self_of b) data Hnone)
    as (e & He & Hattr).
  assert (Hit : set_parameters_iteration E cmd (self_of b) = (self_of b, inl e)).
  { unfold cmd, set_parameters_iteration. run_py. now rewrite Hd, Hs. }
  exists e. split; [|split].
  - unfold handle. now rewrite Hit.
  - exact Hattr.
  - intros rest. cbn [set_parameters]. rewrite Hit.
    now destruct (set_parameters E (self_of b) rest).
Qed.

Lemma C10_multiplier_before_begin_witness :
  ~ In Begin [Rout Sample.cmd_other; Sub Sample.msg_full] /\
  let b := run_events Sample.env
             (fresh_bus Sample.env (Socket "pub") (Socket "sub"))
             [Rout Sample.cmd_other; Sub Sample.msg_full] in
  smooth_data (self_of b) = None /\
  exists e, handle Sample.env b (Rout Sample.cmd_multiplier) =
            mkBus (self_of b) (pub_sub_task b) (sent b) (errors b ++ [e]).
Proof.
  assert (Hnb : ~ In Begin [Rout Sample.cmd_other; Sub Sample.msg_full]).
  { simpl. intros [H|[H|[]]]; discriminate H. }
  split; [exact Hnb|].
  destruct (C10_multiplier_before_begin Sample.env (Socket "pub") (Socket "sub")
              _ "client1" "multiplier" (Sample.dumps Sample.payload_multiplier)
              "multiplier" Hnb eq_refl eq_refl) as (Hnone & e & Hh & _).
  split; [exact Hnone|]. exists e. exact Hh.
Defined.

(** * Further properties of the module *)

(** ** The subscriber loop as a whole *)

Section LoopRuns.
Context (E : PyEnv).

Lemma publish_fields (o : option (list bytes)) (r : run E) :
  smooth_data_of (publish E o r) = smooth_data_of r /\
  logged (publish E o r) = logged r /\
  listening (publish E o r) = listening r /\
  published (publish E o r) =
  match o with Some m => m :: published r | None => published r end.
Proof. destruct o; repeat split. Qed.

Lemma iteration_sent_length (sd sd' : smoother E) msg out :
  pub_sub_iteration E msg sd = (sd', inr (Some out)) ->
  List.length out = 3%nat.
Proof.
  rewrite iteration_cases.
  destruct (index msg 1) as [e|frame]; [discriminate|].
  destruct (String.eqb frame EmptyString).
  - destruct (index msg 0) as [e|topic]; [discriminate|].
    intros H. now inversion H.
  - destruct (index msg 2) as [e|payload]; [discriminate|].
    destruct (decode payload) as [e|text]; [discriminate|].
    destruct (json_loads E text) as [e|data]; [discriminate|].
    destruct (confidence_ok data) as [e|[|]]; try discriminate.
    intros H.
    destruct (forward_sends E sd sd' msg data _ H) as (t & f & d' & _ & _ & Ho).
    now inversion Ho.
Qed.

Lemma iteration_dropped (sd sd' : smoother E) msg :
  pub_sub_iteration E msg sd = (sd', inr None) ->
  sd' = sd /\
  exists frame data, parsed E msg frame data /\ confidence_ok data = inr false.
Proof.
  rewrite iteration_cases.
  destruct (index msg 1) as [e|frame] eqn:H1; [discriminate|].
  destruct (String.eqb frame EmptyString) eqn:Hb.
  - destruct (index msg 0) as [e|topic]; discriminate.
  - destruct (index msg 2) as [e|payload] eqn:H2; [discriminate|].
    destruct (decode payload) as [e|text] eqn:Hd; [discriminate|].
    destruct (json_loads E text) as [e|data] eqn:Hl; [discriminate|].
    destruct (confidence_ok data) as [e|[|]] eqn:Hc; try discriminate.
    + intros H.
      destruct (forward_sends E sd sd' msg data _ H) as (t & f & d' & _ & _ & Ho).
      discriminate Ho.
    + intros H. inversion H; subst. split; [reflexivity|].
      exists frame, data. split; [|exact Hc].
      split; [exact H1|]. split; [now apply String.eqb_neq|].
      exists payload, text. auto.
Qed.

End LoopRuns.

(** X1: over any sequence of inbound messages the subscriber loop
    publishes at most one message per inbound message, and every message
    it publishes has exactly three parts. *)
Theorem X1_loop_output_bound (E : PyEnv) (sd : smoother E)
        (inbox : list (list bytes)) :
  (List.length (published (pub_sub_loop E sd inbox)) <= List.length inbox)%nat /\
  Forall (fun out => List.length out = 3%nat)
         (published (pub_sub_loop E sd inbox)).
Proof.
  revert sd. induction inbox as [|msg inbox IH]; intros sd; simpl.
  - split; [lia|constructor].
  - destruct (pub_sub_iteration E msg sd) as [sd' [e|o]] eqn:Hit.
    + simpl. split; [lia|constructor].
    + destruct (IH sd') as (Hlen & Hall).
      destruct (publish_fields E o (pub_sub_loop E sd' inbox))
        as (_ & _ & _ & ->).
      destruct o as [out|]; simpl.
      * split; [lia|]. constructor; [|exact Hall].
        exact (iteration_sent_length E sd sd' msg out Hit).
      * split; [lia|exact Hall].
Qed.

(** X2: a run of the subscriber loop is either still listening with an
    empty error log, or has stopped with exactly one logged exception:
    the loop never survives an exception and never stops without one. *)
Theorem X2_loop_log_invariant (E : PyEnv) (sd : smoother E)
        (inbox : list (list bytes)) :
  (listening (pub_sub_loop E sd inbox) = true /\
   logged (pub_sub_loop E sd inbox) = []) \/
  (listening (pub_sub_loop E sd inbox) = false /\
   exists e, logged (pub_sub_loop E sd inbox) = [e]).
Proof.
  revert sd. induction inbox as [|msg inbox IH]; intros sd; simpl.
  - now left.
  - destruct (pub_sub_iteration E msg sd) as [sd' [e|o]].
    + right. simpl. eauto.
    + destruct (publish_fields E o (pub_sub_loop E sd' inbox))
        as (_ & -> & -> & _).
      apply IH.
Qed.

(** X3: runs of the subscriber loop compose.  If the loop is still
    listening after a first batch of messages, a second batch is handled
    from the smoother state the first left, and the published messages
    are those of the first batch followed by those of the second; if the
    loop has stopped during the first batch, further messages change
    nothing. *)
Theorem X3_loop_append (E : PyEnv) (sd : smoother E)
        (inbox1 inbox2 : list (list bytes)) :
  pub_sub_loop E sd (inbox1 ++ inbox2) =
  let r1 := pub_sub_loop E sd inbox1 in
  if listening r1 then
    let r2 := pub_sub_loop E (smooth_data_of r1) inbox2 in
    mkRun (smooth_data_of r2) (published r1 ++ published r2)
          (logged r2) (listening r2)
  else r1.
Proof.
  cbv zeta. revert sd.
  induction inbox1 as [|msg inbox1 IH]; intros sd; simpl.
  - now destruct (pub_sub_loop E sd inbox2).
  - destruct (pub_sub_iteration E msg sd) as [sd' [e|o]]; [reflexivity|].
    rewrite IH.
    destruct (publish_fields E o (pub_sub_loop E sd' inbox1))
      as (-> & _ & -> & Hp).
    destruct (listening (pub_sub_loop E sd' inbox1)); [|reflexivity].
    rewrite Hp. now destruct o.
Qed.

(** ** Messages the subscriber loop cannot handle *)

(** X4: a message with fewer than two parts, or with a non-empty frame
    and no third part, raises [IndexError]; the smoother is untouched,
    nothing is sent, and the subscriber loop stops there. *)
Theorem X4_short_message (E : PyEnv) (sd : smoother E) (msg : list bytes)
        (inbox : list (list bytes)) :
  (List.length msg < 2)%nat \/
  (exists topic frame, msg = [topic; frame] /\ frame <> EmptyString) ->
  pub_sub_iteration E msg sd = (sd, inl IndexError) /\
  pub_sub_loop E sd (msg :: inbox) = mkRun sd [] [IndexError] false.
Proof.
  intros H.
  assert (Hit : pub_sub_iteration E msg sd = (sd, inl IndexError)).
  { destruct H as [Hlen | (topic & frame & -> & Hne)].
    - destruct msg as [|a [|b r]]; [reflexivity|reflexivity|].
      simpl in Hlen. lia.
    - rewrite iteration_cases. unfold index. cbn [nth_error].
      apply String.eqb_neq in Hne. now rewrite Hne. }
  split; [exact Hit|]. exact (pub_sub_loop_raises E sd sd msg _ inbox Hit).
Qed.

Lemma X4_short_message_witness :
  pub_sub_iteration Sample.env ["openface"] Sample.sd0 =
  (Sample.sd0, inl IndexError) /\
  pub_sub_loop Sample.env Sample.sd0 [["openface"; "17"]; Sample.msg_full] =
  mkRun Sample.sd0 [] [IndexError] false.
Proof.
  split.
  - apply (X4_short_message Sample.env Sample.sd0 ["openface"] []).
    left. simpl. lia.
  - apply (X4_short_message Sample.env Sample.sd0 ["openface"; "17"]
                            [Sample.msg_full]).
    right. exists "openface", "17". split; [reflexivity|discriminate].
Defined.

(** X5: a non-terminal message whose payload is not UTF-8, or whose
    decoded payload the JSON decoder refuses, raises that error before
    anything else is looked at: the smoother is untouched, nothing is
    sent, and the subscriber loop stops there. *)
Theorem X5_undecodable_payload (E : PyEnv) (sd : smoother E)
        (msg : list bytes) (frame payload : bytes) (e : exn)
        (inbox : list (list bytes)) :
  index msg 1 = inr frame -> frame <> EmptyString ->
  index msg 2 = inr payload ->
  (utf8_valid payload = false /\ e = UnicodeDecodeError) \/
  (utf8_valid payload = true /\ json_loads E payload = inl e) ->
  pub_sub_iteration E msg sd = (sd, inl e) /\
  pub_sub_loop E sd (msg :: inbox) = mkRun sd [] [e] false.
Proof.
  intros H1 Hne H2 H.
  assert (Hit : pub_sub_iteration E msg sd = (sd, inl e)).
  { rewrite iteration_cases, H1. apply String.eqb_neq in Hne.
    rewrite Hne, H2. unfold decode.
    destruct H as [(Hv & ->) | (Hv & Hl)]; rewrite Hv; [reflexivity|].
    now rewrite Hl. }
  split; [exact Hit|]. exact (pub_sub_loop_raises E sd sd msg _ inbox Hit).
Qed.

Lemma X5_undecodable_payload_witness :
  pub_sub_iteration Sample.env
    ["openface"; "17"; String (ascii_of_nat 200) EmptyString] Sample.sd0 =
  (Sample.sd0, inl UnicodeDecodeError) /\
  pub_sub_iteration Sample.env ["openface"; "17"; "{"] Sample.sd0 =
  (Sample.sd0, inl JSONDecodeError).
Proof.
  split.
  - apply (X5_undecodable_payload Sample.env Sample.sd0 _ "17"
             (String (ascii_of_nat 200) EmptyString) UnicodeDecodeError []);
      try reflexivity; [discriminate|].
    left. split; reflexivity.
  - apply (X5_undecodable_payload Sample.env Sample.sd0 _ "17" "{"
             JSONDecodeError []); try reflexivity; [discriminate|].
    right. split; vm_compute; reflexivity.
Defined.

(** X6: the confidence test orders only numbers with the threshold.  A
    [confidence] that is a string, [None], a list or a mapping raises
    [TypeError] (the message is not silently dropped, and the loop
    stops); a [confidence] that is a NaN compares false and the message
    is dropped without an error. *)
Theorem X6_confidence_not_ordered (E : PyEnv) (sd : smoother E)
        (msg : list bytes) (frame : bytes) (d : dict) (c : pyval) :
  parsed E msg frame (PDict d) ->
  dict_get "confidence" d = Some c ->
  (is_number c = false -> pub_sub_iteration E msg sd = (sd, inl TypeError)) /\
  (c = PFloat S754_nan -> pub_sub_iteration E msg sd = (sd, inr None)).
Proof.
  intros Hp Hc. rewrite (iteration_parsed E sd msg frame (PDict d) Hp).
  rewrite confidence_ok_dict, Hc. split.
  - intros Hn. destruct c; try discriminate Hn; reflexivity.
  - intros ->. reflexivity.
Qed.

Lemma X6_confidence_not_ordered_witness :
  pub_sub_iteration Sample2.env
    (Sample2.message Sample2.payload_text_confidence) Sample2.sd0 =
  (Sample2.sd0, inl TypeError) /\
  pub_sub_iteration Sample2.env
    (Sample2.message Sample2.payload_nan) Sample2.sd0 =
  (Sample2.sd0, inr None).
Proof.
  split.
  - assert (Hp : parsed Sample2.env
                   (Sample2.message Sample2.payload_text_confidence) "21"
                   Sample2.payload_text_confidence).
    { split; [reflexivity|]. split; [discriminate|].
      exists (Sample.dumps Sample2.payload_text_confidence),
             (Sample.dumps Sample2.payload_text_confidence).
      repeat split; vm_compute; reflexivity. }
    apply (proj1 (X6_confidence_not_ordered Sample2.env Sample2.sd0 _ "21" _
                    (PStr "high") Hp eq_refl)).
    reflexivity.
  - assert (Hp : parsed Sample2.env (Sample2.message Sample2.payload_nan) "21"
                   Sample2.payload_nan).
    { split; [reflexivity|]. split; [discriminate|].
      exists (Sample.dumps Sample2.payload_nan),
             (Sample.dumps Sample2.payload_nan).
      repeat split; vm_compute; reflexivity. }
    apply (proj2 (X6_confidence_not_ordered Sample2.env Sample2.sd0 _ "21" _
                    (PFloat S754_nan) Hp eq_refl)).
    reflexivity.
Defined.

(** X7: a payload that decodes to [None], a [bool] or a number raises
    [TypeError] at the [in] test; the smoother is untouched and nothing
    is sent. *)
Theorem X7_scalar_payload (E : PyEnv) (sd : smoother E) (msg : list bytes)
        (frame : bytes) (v : pyval) :
  parsed E msg frame v -> is_scalar v = true ->
  pub_sub_iteration E msg sd = (sd, inl TypeError).
Proof.
  intros Hp Hs. rewrite (iteration_parsed E sd msg frame v Hp).
  destruct v; try discriminate Hs; reflexivity.
Qed.

Lemma X7_scalar_payload_witness :
  parsed Sample2.env (Sample2.message Sample2.payload_number) "21"
         Sample2.payload_number /\
  pub_sub_iteration Sample2.env (Sample2.message Sample2.payload_number)
                    Sample2.sd0 = (Sample2.sd0, inl TypeError).
Proof.
  assert (Hp : parsed Sample2.env (Sample2.message Sample2.payload_number) "21"
                 Sample2.payload_number).
  { split; [reflexivity|]. split; [discriminate|].
    exists "5", "5". repeat split; vm_compute; reflexivity. }
  split; [exact Hp|].
  exact (X7_scalar_payload Sample2.env Sample2.sd0 _ "21" _ Hp eq_refl).
Defined.

Lemma list_contains_spec (k : str) (l : list pyval) :
  existsb (fun x => match x with
                    | PStr s => String.eqb k s
                    | _ => false
                    end) l = true <-> In (PStr k) l.
Proof.
  rewrite existsb_exists. split.
  - intros (x & Hin & Hx). destruct x; try discriminate Hx.
    apply String.eqb_eq in Hx. now subst.
  - intros Hin. exists (PStr k). split; [exact Hin|apply String.eqb_refl].
Qed.

Lemma list_contains_false (k : str) (l : list pyval) :
  ~ In (PStr k) l -> py_contains k (PList l) = inr false.
Proof.
  intros Hn. unfold py_contains. f_equal. apply not_true_is_false.
  intros H. apply Hn. now apply list_contains_spec.
Qed.

(** X8: a payload that decodes to a list is not a mapping the loop can
    look into.  A list holding the string [confidence] raises
    [TypeError] at the subscript; a list holding none of the strings
    [confidence], [au_r] and [pose] is sent on re-encoded as it is,
    without smoothing, under any topic that decodes. *)
Theorem X8_list_payload (E : PyEnv) (sd : smoother E) (msg : list bytes)
        (frame topic : bytes) (t : str) (l : list pyval) :
  parsed E msg frame (PList l) ->
  index msg 0 = inr topic -> decode topic = inr t ->
  (In (PStr "confidence") l ->
   pub_sub_iteration E msg sd = (sd, inl TypeError)) /\
  (~ In (PStr "confidence") l -> ~ In (PStr "au_r") l ->
   ~ In (PStr "pose") l ->
   pub_sub_iteration E msg sd =
   (sd, inr (Some [topic; frame; json_dumps E (PList l)]))).
Proof.
  intros Hp H0 Hd.
  assert (H1 : index msg 1 = inr frame) by apply Hp.
  rewrite (iteration_parsed E sd msg frame (PList l) Hp). split.
  - intros Hin. unfold confidence_ok.
    apply list_contains_spec in Hin. unfold py_contains. now rewrite Hin.
  - intros Hc Ha Hpo. unfold confidence_ok.
    rewrite (list_contains_false "confidence" l Hc).
    rewrite (forward_topic E sd msg (PList l) topic t frame H0 Hd H1).
    destruct (negb (startswith t "facsvatar")); [|reflexivity].
    unfold bind, smooth_au_r, lift, ret.
    rewrite (list_contains_false "au_r" l Ha). cbv beta iota.
    unfold smooth_pose, bind, lift, ret.
    now rewrite (list_contains_false "pose" l Hpo).
Qed.

Lemma X8_list_payload_witness :
  pub_sub_iteration Sample2.env
    (Sample2.message Sample2.payload_list_confidence) Sample2.sd0 =
  (Sample2.sd0, inl TypeError) /\
  pub_sub_iteration Sample2.env (Sample2.message Sample2.payload_list)
                    Sample2.sd0 =
  (Sample2.sd0, inr (Some ["openface"; "21"; "[1, " ++ Sample.q "x" ++ "]"]%string)).
Proof.
  split.
  - assert (Hp : parsed Sample2.env
                   (Sample2.message Sample2.payload_list_confidence) "21"
                   Sample2.payload_list_confidence).
    { split; [reflexivity|]. split; [discriminate|].
      exists (Sample.dumps Sample2.payload_list_confidence),
             (Sample.dumps Sample2.payload_list_confidence).
      repeat split; vm_compute; reflexivity. }
    apply (proj1 (X8_list_payload Sample2.env Sample2.sd0 _ "21" "openface"
                    "openface" _ Hp eq_refl eq_refl)).
    now left.
  - assert (Hp : parsed Sample2.env (Sample2.message Sample2.payload_list) "21"
                   Sample2.payload_list).
    { split; [reflexivity|]. split; [discriminate|].
      exists (Sample.dumps Sample2.payload_list),
             (Sample.dumps Sample2.payload_list).
      repeat split; vm_compute; reflexivity. }
    apply (proj2 (X8_list_payload Sample2.env Sample2.sd0 _ "21" "openface"
                    "openface" _ Hp eq_refl eq_refl));
      simpl; intros [H|[H|[]]]; discriminate H.
Defined.

(** X9: an exception of the smoother ends the iteration without a
    message.  When the call for [au_r] fails, [pose] is not smoothed;
    when the call for [pose] fails after the one for [au_r] has
    succeeded, nothing is sent although the smoother state already holds
    the effect of the first call. *)
Theorem X9_smoother_failure (E : PyEnv) (sd : smoother E) (msg : list bytes)
        (frame topic : bytes) (t : str) (d : dict) :
  parsed E msg frame (PDict d) ->
  confidence_ok (PDict d) = inr true ->
  index msg 0 = inr topic -> decode topic = inr t ->
  startswith t "facsvatar" = false ->
  let sorted a := PDict (dict_of_items (sorted_by_key a)) in
  (forall a e sd1,
      dict_get "au_r" d = Some (PDict a) ->
      smooth_func E (sorted a) 0 4 steep_au_r sd = (sd1, inl e) ->
      pub_sub_iteration E msg sd = (sd1, inl e)) /\
  (forall a r1 sd1 p e sd2,
      dict_get "au_r" d = Some (PDict a) ->
      smooth_func E (sorted a) 0 4 steep_au_r sd = (sd1, inr r1) ->
      dict_get "pose" d = Some p ->
      smooth_func E p 1 4 steep_pose sd1 = (sd2, inl e) ->
      pub_sub_iteration E msg sd = (sd2, inl e)) /\
  (forall p e sd2,
      dict_get "au_r" d = None ->
      dict_get "pose" d = Some p ->
      smooth_func E p 1 4 steep_pose sd = (sd2, inl e) ->
      pub_sub_iteration E msg sd = (sd2, inl e)).
Proof.
  intros Hp Hc H0 Hd Hs sorted.
  assert (H1 : index msg 1 = inr frame) by apply Hp.
  rewrite (iteration_parsed E sd msg frame (PDict d) Hp), Hc.
  rewrite (forward_topic E sd msg (PDict d) topic t frame H0 Hd H1), Hs.
  cbn [negb]. unfold bind. rewrite smooth_au_r_dict.
  split; [|split].
  - intros a e sd1 Ha Hsm. rewrite Ha. fold (sorted a). now rewrite Hsm.
  - intros a r1 sd1 p e sd2 Ha Hsm Hpose Hsm2. rewrite Ha.
    fold (sorted a). rewrite Hsm, smooth_pose_dict.
    rewrite (dict_get_set_other "au_r" "pose" r1 d) by discriminate.
    now rewrite Hpose, Hsm2.
  - intros p e sd2 Ha Hpose Hsm2. rewrite Ha, smooth_pose_dict.
    now rewrite Hpose, Hsm2.
Qed.

Lemma X9_smoother_failure_witness :
  exists sd2,
    queues sd2 =
    [(0%nat, 4%nat, PDict [("AU01", PInt 2); ("AU02", PInt 1)]);
     (1%nat, 4%nat, Sample.pose_value)] /\
    pub_sub_iteration Sample2.env_failing Sample.msg_full Sample2.sd0_failing =
    (sd2, inl (LibraryError 1)).
Proof.
  assert (Hp : parsed Sample2.env_failing Sample.msg_full "17" Sample.payload_full).
  { split; [reflexivity|]. split; [discriminate|].
    exists (Sample.dumps Sample.payload_full), (Sample.dumps Sample.payload_full).
    repeat split; vm_compute; reflexivity. }
  eexists. split; [|
    refine (proj1 (proj2 (X9_smoother_failure Sample2.env_failing
                            Sample2.sd0_failing Sample.msg_full "17" "openface"
                            "openface" _ Hp eq_refl eq_refl eq_refl eq_refl))
                  [("AU02", PInt 1); ("AU01", PInt 2)] _ _ Sample.pose_value
                  _ _ eq_refl eq_refl eq_refl eq_refl) ].
  reflexivity.
Defined.

(** X10: an [au_r] that is not a mapping (a number, a string, a list,
    [None]) raises [AttributeError] at [.items()] before the smoother is
    called: the smoother state is unchanged and nothing is sent. *)
Theorem X10_au_r_not_a_mapping (E : PyEnv) (sd : smoother E)
        (msg : list bytes) (frame topic : bytes) (t : str) (d : dict)
        (v : pyval) :
  parsed E msg frame (PDict d) ->
  confidence_ok (PDict d) = inr true ->
  index msg 0 = inr topic -> decode topic = inr t ->
  startswith t "facsvatar" = false ->
  dict_get "au_r" d = Some v -> is_dict v = false ->
  pub_sub_iteration E msg sd = (sd, inl AttributeError).
Proof.
  intros Hp Hc H0 Hd Hs Ha Hv.
  assert (H1 : index msg 1 = inr frame) by apply Hp.
  rewrite (iteration_parsed E sd msg frame (PDict d) Hp), Hc.
  rewrite (forward_topic E sd msg (PDict d) topic t frame H0 Hd H1), Hs.
  cbn [negb]. unfold bind. rewrite smooth_au_r_dict, Ha.
  destruct v; try discriminate Hv; reflexivity.
Qed.

Lemma X10_au_r_not_a_mapping_witness :
  parsed Sample.env Sample.msg_bad_au_r "19" Sample.payload_bad_au_r /\
  pub_sub_iteration Sample.env Sample.msg_bad_au_r Sample.sd0 =
  (Sample.sd0, inl AttributeError).
Proof.
  assert (Hp : parsed Sample.env Sample.msg_bad_au_r "19" Sample.payload_bad_au_r).
  { split; [reflexivity|]. split; [discriminate|].
    exists (Sample.dumps Sample.payload_bad_au_r),
           (Sample.dumps Sample.payload_bad_au_r).
    repeat split; vm_compute; reflexivity. }
  split; [exact Hp|].
  exact (X10_au_r_not_a_mapping Sample.env Sample.sd0 _ "19" "openface"
           "openface" _ (PInt 5) Hp eq_refl eq_refl eq_refl eq_refl
           eq_refl eq_refl).
Defined.

(** X11: an iteration that ends without a message and without an
    exception is a drop by the confidence test, and only that: the
    message is non-terminal, its payload decoded, the test answered
    false, and the smoother was not called (its state is unchanged). *)
Theorem X11_silent_iteration_is_a_drop (E : PyEnv) (sd sd' : smoother E)
        (msg : list bytes) :
  pub_sub_iteration E msg sd = (sd', inr None) ->
  sd' = sd /\
  exists frame data, parsed E msg frame data /\ confidence_ok data = inr false.
Proof. apply iteration_dropped. Qed.

Lemma X11_silent_iteration_is_a_drop_witness :
  pub_sub_iteration Sample.env Sample.msg_low Sample.sd0 = (Sample.sd0, inr None) /\
  exists frame data,
    parsed Sample.env Sample.msg_low frame data /\
    confidence_ok data = inr false.
Proof.
  assert (Hrun : pub_sub_iteration Sample.env Sample.msg_low Sample.sd0 =
                 (Sample.sd0, inr None)) by (vm_compute; reflexivity).
  split; [exact Hrun|].
  exact (proj2 (X11_silent_iteration_is_a_drop Sample.env Sample.sd0
                  Sample.sd0 Sample.msg_low Hrun)).
Defined.

(** ** The order in which [au_r] reaches the smoother *)

Lemma leb_refl (a : str) : String.leb a a = true.
Proof.
  unfold String.leb.
  destruct (String.compare a a) eqn:H; try reflexivity.
  pose proof (String.compare_antisym a a) as Ha. rewrite H in Ha.
  discriminate Ha.
Qed.

Lemma leb_trans (a b c : str) :
  String.leb a b = true -> String.leb b c = true -> String.leb a c = true.
Proof.
  unfold String.leb.
  destruct (String.compare a b) eqn:Hab; try discriminate; intros _.
  - apply String.compare_eq_iff in Hab. now subst.
  - destruct (String.compare b c) eqn:Hbc; try discriminate; intros _.
    + apply String.compare_eq_iff in Hbc. subst. now rewrite Hab.
    + apply OrderedTypeEx.String_as_OT.cmp_lt in Hab, Hbc.
      pose proof (OrderedTypeEx.String_as_OT.lt_trans _ _ _ Hab Hbc) as Hac.
      apply OrderedTypeEx.String_as_OT.cmp_lt in Hac.
      unfold OrderedTypeEx.String_as_OT.cmp in Hac. now rewrite Hac.
Qed.

Lemma key_le_strongly_sorted (l : list (str * pyval)) :
  Sorted key_le l -> StronglySorted key_le l.
Proof.
  apply Sorted_StronglySorted.
  intros x y z Hxy Hyz. exact (leb_trans _ _ _ Hxy Hyz).
Qed.

Lemma nodup_keys_inj (l : list (str * pyval)) (x y : str * pyval) :
  NoDup (map fst l) -> In x l -> In y l -> fst x = fst y -> x = y.
Proof.
  induction l as [|z l IH]; simpl; [contradiction|].
  intros Hnd Hx Hy Hk. inversion Hnd as [|? ? Hnin Hnd']; subst.
  destruct Hx as [->|Hx], Hy as [->|Hy]; auto.
  - exfalso. apply Hnin. rewrite Hk. now apply in_map.
  - exfalso. apply Hnin. rewrite <- Hk. now apply in_map.
Qed.

Lemma sorted_perm_unique (l1 l2 : list (str * pyval)) :
  NoDup (map fst l1) ->
  StronglySorted key_le l1 -> StronglySorted key_le l2 ->
  Permutation l1 l2 -> l1 = l2.
Proof.
  revert l2. induction l1 as [|x t1 IH]; intros l2 Hnd Hs1 Hs2 Hperm.
  - apply Permutation_nil in Hperm. now subst.
  - destruct l2 as [|y t2].
    { apply Permutation_sym, Permutation_nil in Hperm. discriminate. }
    inversion Hs1 as [|? ? Hs1' Hall1]; subst.
    inversion Hs2 as [|? ? Hs2' Hall2]; subst.
    assert (Hy : In y (x :: t1)).
    { apply (Permutation_in _ (Permutation_sym Hperm)). now left. }
    assert (Hx : In x (y :: t2)).
    { apply (Permutation_in _ Hperm). now left. }
    assert (Hxy : key_le x y).
    { destruct Hy as [<-|Hy]; [apply leb_refl|].
      rewrite Forall_forall in Hall1. now apply Hall1. }
    assert (Hyx : key_le y x).
    { destruct Hx as [<-|Hx]; [apply leb_refl|].
      rewrite Forall_forall in Hall2. now apply Hall2. }
    assert (Heq : x = y).
    { apply (nodup_keys_inj (x :: t1)); auto; [now left|].
      apply String.leb_antisym; assumption. }
    subst y. f_equal. apply IH; auto.
    + simpl in Hnd. now inversion Hnd.
    + now apply Permutation_cons_inv in Hperm.
Qed.

(** X12: what the smoother is given for [au_r] does not depend on the
    order in which the payload lists the action units: two mappings with
    the same entries (and distinct keys) give the same
    [dict(sorted(items))]. *)
Theorem X12_au_r_order_independent (a1 a2 : dict) :
  NoDup (map fst a1) -> Permutation a1 a2 ->
  dict_of_items (sorted_by_key a1) = dict_of_items (sorted_by_key a2).
Proof.
  intros Hnd Hperm. f_equal.
  assert (Hnd1 : NoDup (map fst (sorted_by_key a1))).
  { eapply Permutation_NoDup; [|exact Hnd].
    apply Permutation_map, sorted_by_key_perm. }
  apply sorted_perm_unique; auto.
  - apply key_le_strongly_sorted, sorted_by_key_sorted.
  - apply key_le_strongly_sorted, sorted_by_key_sorted.
  - rewrite <- (sorted_by_key_perm a1), <- (sorted_by_key_perm a2).
    exact Hperm.
Qed.

Lemma X12_au_r_order_independent_witness :
  dict_of_items (sorted_by_key [("AU02", PInt 1); ("AU01", PInt 2); ("AU04", PInt 0)]) =
  dict_of_items (sorted_by_key [("AU04", PInt 0); ("AU02", PInt 1); ("AU01", PInt 2)]).
Proof.
  apply X12_au_r_order_independent.
  - simpl. repeat constructor; simpl; intuition discriminate.
  - apply Permutation_sym.
    apply (Permutation_cons_app [("AU02", PInt 1); ("AU01", PInt 2)] []).
    rewrite app_nil_r. reflexivity.
Defined.

(** ** The router loop *)

Section RouterRuns.
Context (E : PyEnv).

Lemma set_multiplier_frame (self : FACSvatarMessages E) data :
  same_but_multiplier self (fst (set_multiplier E data self)).
Proof.
  unfold set_multiplier, assign_multiplier. run_py.
  destruct (decode data) as [e|text]; [solve [repeat split]|].
  destruct (json_loads E text) as [e|v]; [solve [repeat split]|].
  destruct (np_array E v) as [e|a]; [solve [repeat split]|].
  destruct (smooth_data self) as [sd|] eqn:Hsd; simpl;
    repeat split; now rewrite ?Hsd.
Qed.

Lemma iteration_frame (self : FACSvatarMessages E) msg :
  same_but_multiplier self (fst (set_parameters_iteration E msg self)).
Proof.
  destruct msg as [|a [|b [|c [|x r]]]]; try solve [repeat split].
  unfold set_parameters_iteration. run_py.
  destruct (decode b) as [e|t]; [solve [repeat split]|].
  destruct (startswith t "multiplier"); [|solve [repeat split]].
  apply set_multiplier_frame.
Qed.

Lemma set_parameters_frame (self : FACSvatarMessages E) commands :
  same_but_multiplier self (fst (set_parameters E self commands)).
Proof.
  revert self. induction commands as [|msg commands IH]; intros self; simpl.
  - repeat split.
  - pose proof (iteration_frame self msg) as (Hp & Hs & Hq).
    destruct (set_parameters_iteration E msg self) as [self' [e|u]];
      simpl in Hp, Hs, Hq;
      destruct (IH self') as (Hp' & Hs' & Hq');
      destruct (set_parameters E self' commands) as [self'' l]; simpl in *;
      repeat split; congruence.
Qed.

Lemma set_multiplier_installs (self : FACSvatarMessages E)
      (id_dealer topic data : bytes) t text v a sd :
  decode topic = inr t -> startswith t "multiplier" = true ->
  decode data = inr text -> json_loads E text = inr v ->
  np_array E v = inr a -> smooth_data self = Some sd ->
  set_parameters_iteration E [id_dealer; topic; data] self =
  (mkSelf (pub_socket self) (sub_socket self)
          (Some (mkSmoothData a (queues sd))), inr tt).
Proof.
  intros Hd Hs Ht Hv Ha Hsd.
  unfold set_parameters_iteration, set_multiplier, assign_multiplier. run_py.
  now rewrite Hd, Hs, Ht, Hv, Ha, Hsd.
Qed.

Lemma multiplier_success_inv (self s2 : FACSvatarMessages E)
      (id_dealer topic data : bytes) t :
  decode topic = inr t -> startswith t "multiplier" = true ->
  set_parameters_iteration E [id_dealer; topic; data] self = (s2, inr tt) ->
  exists text v a sd,
    decode data = inr text /\ json_loads E text = inr v /\
    np_array E v = inr a /\ smooth_data self = Some sd.
Proof.
  intros Hd Hs.
  unfold set_parameters_iteration, set_multiplier, assign_multiplier. run_py.
  rewrite Hd, Hs.
  destruct (decode data) as [e|text] eqn:Ht; [discriminate|].
  destruct (json_loads E text) as [e|v] eqn:Hv; [discriminate|].
  destruct (np_array E v) as [e|a] eqn:Ha; [discriminate|].
  destruct (smooth_data self) as [sd|] eqn:Hsd; [|discriminate].
  intros _. exists text, v, a, sd. repeat split; assumption.
Qed.

End RouterRuns.

(** X13: a command that does not have exactly three parts fails to
    unpack: [ValueError] is raised (and logged by the loop), and the
    object is unchanged. *)
Theorem X13_command_arity (E : PyEnv) (self : FACSvatarMessages E)
        (msg : list bytes) :
  List.length msg <> 3%nat ->
  set_parameters_iteration E msg self = (self, inl ValueError).
Proof.
  intros Hlen. destruct msg as [|a [|b [|c [|x r]]]]; try reflexivity.
  now contradiction Hlen.
Qed.

Lemma X13_command_arity_witness :
  set_parameters_iteration Sample.env ["client1"; "multiplier"] Sample.self1 =
  (Sample.self1, inl ValueError) /\
  set_parameters_iteration Sample.env
    ["client1"; "multiplier"; "[1.5]"; "more"] Sample.self1 =
  (Sample.self1, inl ValueError).
Proof.
  split; apply X13_command_arity; simpl; lia.
Defined.

(** X14: whatever commands the router receives, it changes nothing but
    the multiplier: the two sockets stay, a missing smoother stays
    missing, and an existing smoother keeps its histories. *)
Theorem X14_router_changes_only_multiplier (E : PyEnv)
        (self : FACSvatarMessages E) (commands : list (list bytes)) :
  same_but_multiplier self (fst (set_parameters E self commands)).
Proof. apply set_parameters_frame. Qed.

(** X15: a multiplier command that succeeds gives the same object
    whatever commands were handled before it: the new multiplier replaces
    the old one and nothing of earlier commands remains. *)
Theorem X15_multiplier_forgets_earlier_commands (E : PyEnv)
        (self s2 : FACSvatarMessages E) (commands : list (list bytes))
        (id_dealer topic data : bytes) (t : str) :
  decode topic = inr t -> startswith t "multiplier" = true ->
  set_parameters_iteration E [id_dealer; topic; data] self = (s2, inr tt) ->
  set_parameters_iteration E [id_dealer; topic; data]
                           (fst (set_parameters E self commands)) =
  (s2, inr tt).
Proof.
  intros Hd Hs Hrun.
  destruct (multiplier_success_inv E self s2 id_dealer topic data t Hd Hs Hrun)
    as (text & v & a & sd & Ht & Hv & Ha & Hsd).
  rewrite (set_multiplier_installs E self id_dealer topic data t text v a sd
             Hd Hs Ht Hv Ha Hsd) in Hrun.
  inversion Hrun; subst s2.
  destruct (set_parameters_frame E self commands) as (Hp & Hsub & Hq).
  destruct (smooth_data (fst (set_parameters E self commands)))
    as [sd'|] eqn:Hsd'; rewrite Hsd in Hq; simpl in Hq; [|discriminate Hq].
  rewrite (set_multiplier_installs E _ id_dealer topic data t text v a sd'
             Hd Hs Ht Hv Ha Hsd').
  rewrite Hp, Hsub. inversion Hq. reflexivity.
Qed.

Lemma X15_multiplier_forgets_earlier_commands_witness :
  let earlier := ["client2"; "multiplier.au"; Sample.dumps Sample2.payload_list] in
  option_map multiplier
    (smooth_data (fst (set_parameters Sample2.env
                         (mkSelf None None (Some Sample2.sd0)) [earlier]))) =
  Some Sample2.payload_list /\
  set_parameters_iteration Sample2.env Sample.cmd_multiplier
    (fst (set_parameters Sample2.env
            (mkSelf None None (Some Sample2.sd0)) [earlier])) =
  (mkSelf (E := Sample2.env) None None
          (Some (mkSmoothData Sample.payload_multiplier [])), inr tt).
Proof.
  cbv zeta. split; [vm_compute; reflexivity|].
  apply (X15_multiplier_forgets_earlier_commands Sample2.env
           (mkSelf None None (Some Sample2.sd0)) _ _ "client1" "multiplier"
           (Sample.dumps Sample.payload_multiplier) "multiplier");
    vm_compute; reflexivity.
Defined.

(** X16: runs of the router loop compose.  Handling one batch of
    commands after another is handling their concatenation: the second
    batch starts from the object the first left, the logged errors are
    those of the first followed by those of the second, and there is at
    most one logged error per command. *)
Theorem X16_set_parameters_append (E : PyEnv) (self : FACSvatarMessages E)
        (c1 c2 : list (list bytes)) :
  set_parameters E self (c1 ++ c2) =
  (fst (set_parameters E (fst (set_parameters E self c1)) c2),
   snd (set_parameters E self c1) ++
   snd (set_parameters E (fst (set_parameters E self c1)) c2)) /\
  (List.length (snd (set_parameters E self c1)) <= List.length c1)%nat.
Proof.
  split; [apply set_parameters_app|].
  revert self. induction c1 as [|msg c1 IH]; intros self; simpl; [lia|].
  destruct (set_parameters_iteration E msg self) as [self' [e|u]].
  - specialize (IH self').
    destruct (set_parameters E self' c1) as [s l]. simpl in *. lia.
  - specialize (IH self'). lia.
Qed.

(** ** The two coroutines on the event loop *)

Section BusRuns.
Context (E : PyEnv).

Lemma handle_returned (b : bus E) (ev : event) :
  pub_sub_task b = Returned ->
  pub_sub_task (handle E b ev) = Returned /\ sent (handle E b ev) = sent b.
Proof.
  intros Ht. destruct ev as [|msg|msg]; simpl.
  - now rewrite Ht.
  - now rewrite Ht.
  - destruct (set_parameters_iteration E msg (self_of b)) as [s [e|u]]; auto.
Qed.

Lemma handle_sent (b : bus E) (ev : event) :
  exists more,
    sent (handle E b ev) = sent b ++ more /\
    (List.length more <= count_sub [ev])%nat.
Proof.
  assert (Hnone : forall b' : bus E,
             sent b' = sent b ->
             exists more, sent b' = sent b ++ more /\
                          (List.length more <= count_sub [ev])%nat).
  { intros b' Hb'. exists []. rewrite app_nil_r. split; [exact Hb'|].
    simpl. lia. }
  destruct ev as [|msg|msg]; simpl.
  - apply Hnone. now destruct (pub_sub_task b).
  - destruct (pub_sub_task b); try (apply Hnone; reflexivity).
    destruct (smooth_data (self_of b)) as [sd|]; [|apply Hnone; reflexivity].
    destruct (pub_sub_iteration E msg sd) as [sd' [e|[out|]]];
      try (apply Hnone; reflexivity).
    exists [out]. split; [reflexivity|]. unfold count_sub. simpl. lia.
  - apply Hnone.
    now destruct (set_parameters_iteration E msg (self_of b)) as [s [e|u]].
Qed.

Lemma handle_started_iff_smoother (b : bus E) (ev : event) :
  started_iff_smoother b -> started_iff_smoother (handle E b ev).
Proof.
  unfold started_iff_smoother.
  intros Hinv. destruct ev as [|msg|msg]; simpl.
  - destruct Hinv as [(Ht & Hn) | (Ht & sd & Hsd)].
    + rewrite Ht. right. simpl. split; [discriminate|eauto].
    + destruct (pub_sub_task b) eqn:Hpt; [congruence| |];
        right; rewrite Hpt; eauto.
  - destruct Hinv as [(Ht & Hn) | (Ht & sd & Hsd)].
    + rewrite Ht. now left.
    + destruct (pub_sub_task b) eqn:Hpt; [congruence| |].
      * rewrite Hsd.
        destruct (pub_sub_iteration E msg sd) as [sd' [e|[out|]]];
          right; simpl; split; try discriminate; eauto.
      * right. rewrite Hpt. eauto.
  - pose proof (iteration_frame E (self_of b) msg) as (_ & _ & Hq).
    destruct (set_parameters_iteration E msg (self_of b)) as [s [e|u]];
      simpl in Hq |- *;
      (destruct Hinv as [(Ht & Hn) | (Ht & sd & Hsd)];
       [ left; split; [exact Ht|]; rewrite Hn in Hq;
         destruct (smooth_data s); [discriminate Hq|reflexivity]
       | right; split; [exact Ht|]; rewrite Hsd in Hq;
         destruct (smooth_data s) as [sd'|]; [eauto|discriminate Hq] ]).
Qed.

End BusRuns.

(** X17: once the subscriber coroutine has returned it stays returned,
    and whatever arrives afterwards on either socket, nothing more is
    published. *)
Theorem X17_nothing_published_after_return (E : PyEnv) (b : bus E)
        (evs : list event) :
  pub_sub_task b = Returned ->
  pub_sub_task (run_events E b evs) = Returned /\
  sent (run_events E b evs) = sent b.
Proof.
  unfold run_events. revert b.
  induction evs as [|ev evs IH]; intros b Ht; simpl; [auto|].
  destruct (handle_returned E b ev Ht) as (Ht' & Hs').
  destruct (IH (handle E b ev) Ht') as (Ht'' & Hs'').
  split; congruence.
Qed.

Lemma X17_nothing_published_after_return_witness :
  let b := run_events Sample.env
             (fresh_bus Sample.env (Socket "pub") (Socket "sub"))
             [Begin; Sub Sample.msg_full; Sub ["openface"; "18"; "{"]] in
  pub_sub_task b = Returned /\
  List.length (sent b) = 1%nat /\
  sent (run_events Sample.env b
          [Sub Sample.msg_full; Rout Sample.cmd_multiplier; Sub Sample.msg_end]) =
  sent b.
Proof.
  cbv zeta.
  assert (Ht : pub_sub_task
                 (run_events Sample.env
                    (fresh_bus Sample.env (Socket "pub") (Socket "sub"))
                    [Begin; Sub Sample.msg_full; Sub ["openface"; "18"; "{"]]) =
               Returned) by (vm_compute; reflexivity).
  split; [exact Ht|]. split; [vm_compute; reflexivity|].
  exact (proj2 (X17_nothing_published_after_return Sample.env _
                  [Sub Sample.msg_full; Rout Sample.cmd_multiplier;
                   Sub Sample.msg_end] Ht)).
Defined.

(** X18: in every state the event loop reaches from the object as
    [__main__] builds it, the smoother object exists exactly when the
    subscriber coroutine has started: no command creates or removes it,
    and it outlives the subscriber loop. *)
Theorem X18_smoother_exists_iff_started (E : PyEnv) (pub sub : socket)
        (evs : list event) :
  let b := run_events E (fresh_bus E pub sub) evs in
  (pub_sub_task b = Pending <-> smooth_data (self_of b) = None) /\
  pub_socket (self_of b) = Some pub /\ sub_socket (self_of b) = Some sub.
Proof.
  cbv zeta.
  assert (Hgen : forall b : bus E,
             started_iff_smoother b /\
             pub_socket (self_of b) = Some pub /\
             sub_socket (self_of b) = Some sub ->
             started_iff_smoother (run_events E b evs) /\
             pub_socket (self_of (run_events E b evs)) = Some pub /\
             sub_socket (self_of (run_events E b evs)) = Some sub).
  { unfold run_events. induction evs as [|ev evs IH]; intros b Hb; [exact Hb|].
    simpl. apply IH. destruct Hb as (Hinv & Hp & Hs).
    split; [now apply handle_started_iff_smoother|].
    destruct ev as [|msg|msg]; simpl.
    - destruct (pub_sub_task b); auto.
    - destruct (pub_sub_task b); auto.
      destruct (smooth_data (self_of b)) as [sd|]; auto.
      destruct (pub_sub_iteration E msg sd) as [sd' [e|[out|]]]; auto.
    - pose proof (iteration_frame E (self_of b) msg) as (Hp' & Hs' & _).
      destruct (set_parameters_iteration E msg (self_of b)) as [s [e|u]];
        simpl in *; split; congruence. }
  destruct (Hgen (fresh_bus E pub sub)) as (Hinv & Hp & Hs).
  { split; [left; split; reflexivity|split; reflexivity]. }
  split; [|split; assumption].
  destruct Hinv as [(Ht & Hn) | (Ht & sd & Hsd)]; split; intros H;
    try assumption; try contradiction; congruence.
Qed.

(** X19: a multiplier installed by the router is the one the next
    message is smoothed with: the subscriber's iteration runs on the
    smoother that holds the new multiplier and the histories as they
    were, since both coroutines work on the same object. *)
Theorem X19_multiplier_seen_by_next_message (E : PyEnv) (b : bus E)
        (sd : smoother E) (id_dealer topic data : bytes) (t text : str)
        (v : pyval) (a : ndarray E) (msg : list bytes) :
  pub_sub_task b = Listening -> smooth_data (self_of b) = Some sd ->
  decode topic = inr t -> startswith t "multiplier" = true ->
  decode data = inr text -> json_loads E text = inr v ->
  np_array E v = inr a ->
  let b' := handle E (handle E b (Rout [id_dealer; topic; data])) (Sub msg) in
  let step := pub_sub_iteration E msg (mkSmoothData a (queues sd)) in
  smooth_data (self_of b') = Some (fst step) /\
  sent b' = sent b ++ match snd step with
                      | inr (Some out) => [out]
                      | _ => []
                      end.
Proof.
  intros Ht Hsd Hd Hs Hdt Hv Ha. cbv zeta.
  assert (Hb1 : handle E b (Rout [id_dealer; topic; data]) =
                mkBus (mkSelf (pub_socket (self_of b)) (sub_socket (self_of b))
                              (Some (mkSmoothData a (queues sd))))
                      (pub_sub_task b) (sent b) (errors b)).
  { unfold handle.
    now rewrite (set_multiplier_installs E (self_of b) id_dealer topic data
                   t text v a sd Hd Hs Hdt Hv Ha Hsd). }
  rewrite Hb1. unfold handle.
  cbn [pub_sub_task self_of smooth_data sent errors]. rewrite Ht.
  destruct (pub_sub_iteration E msg (mkSmoothData a (queues sd)))
    as [sd' [e|[out|]]]; simpl; rewrite ?app_nil_r; auto.
Qed.

Lemma X19_multiplier_seen_by_next_message_witness :
  let b := run_events Sample.env
             (fresh_bus Sample.env (Socket "pub") (Socket "sub")) [Begin] in
  let b' := handle Sample.env (handle Sample.env b (Rout Sample.cmd_multiplier))
                   (Sub Sample.msg_full) in
  option_map multiplier (smooth_data (self_of b')) =
  Some Sample.payload_multiplier /\
  List.length (sent b') = 1%nat.
Proof.
  cbv zeta.
  destruct (X19_multiplier_seen_by_next_message Sample.env
              (run_events Sample.env
                 (fresh_bus Sample.env (Socket "pub") (Socket "sub")) [Begin])
              Sample.sd0 "client1" "multiplier"
              (Sample.dumps Sample.payload_multiplier) "multiplier"
              (Sample.dumps Sample.payload_multiplier)
              Sample.payload_multiplier Sample.payload_multiplier
              Sample.msg_full)
    as (Hsd & Hsent); try (vm_compute; reflexivity).
  cbv zeta in Hsd, Hsent.
  change (handle Sample.env
            (handle Sample.env
               (run_events Sample.env
                  (fresh_bus Sample.env (Socket "pub") (Socket "sub")) [Begin])
               (Rout ["client1"; "multiplier";
                      Sample.dumps Sample.payload_multiplier]))
            (Sub Sample.msg_full))
    with (handle Sample.env
            (handle Sample.env
               (run_events Sample.env
                  (fresh_bus Sample.env (Socket "pub") (Socket "sub")) [Begin])
               (Rout Sample.cmd_multiplier))
            (Sub Sample.msg_full)) in Hsd, Hsent.
  rewrite Hsd, Hsent. split; vm_compute; reflexivity.
Defined.

(** X20: published messages are never taken back or reordered: after
    any further events the messages sent so far are still there, in
    front of the new ones, and there is at most one new message per
    message that reached the subscriber. *)
Theorem X20_sent_only_grows (E : PyEnv) (b : bus E) (evs : list event) :
  exists more,
    sent (run_events E b evs) = sent b ++ more /\
    (List.length more <= count_sub evs)%nat.
Proof.
  unfold run_events. revert b.
  induction evs as [|ev evs IH]; intros b; simpl.
  - exists []. rewrite app_nil_r. split; [reflexivity|]. simpl. lia.
  - destruct (handle_sent E b ev) as (m1 & H1 & L1).
    destruct (IH (handle E b ev)) as (m2 & H2 & L2).
    exists (m1 ++ m2). split.
    + now rewrite H2, H1, app_assoc.
    + rewrite length_app. unfold count_sub in *. simpl in *.
      destruct ev; simpl in *; lia.
Qed.

(** X21: commands on the router socket, whether they succeed or raise,
    never affect the subscriber: its task state, the messages published
    so far and the smoother's histories are as they were. *)
Theorem X21_router_leaves_subscriber_alone (E : PyEnv) (b : bus E)
        (evs : list event) :
  Forall (fun ev => exists msg, ev = Rout msg) evs ->
  pub_sub_task (run_events E b evs) = pub_sub_task b /\
  sent (run_events E b evs) = sent b /\
  option_map queues (smooth_data (self_of (run_events E b evs))) =
  option_map queues (smooth_data (self_of b)).
Proof.
  unfold run_events. revert b.
  induction evs as [|ev evs IH]; intros b Hall; simpl; [auto|].
  inversion Hall as [|? ? (msg & ->) Hall']; subst.
  destruct (IH (handle E b (Rout msg)) Hall') as (Ht & Hs & Hq).
  rewrite Ht, Hs, Hq. simpl.
  pose proof (iteration_frame E (self_of b) msg) as (_ & _ & Hq').
  destruct (set_parameters_iteration E msg (self_of b)) as [s [e|u]];
    simpl in *; auto.
Qed.

Lemma X21_router_leaves_subscriber_alone_witness :
  let b := run_events Sample.env
             (fresh_bus Sample.env (Socket "pub") (Socket "sub"))
             [Begin; Sub Sample.msg_full] in
  let b' := run_events Sample.env b
              [Rout Sample.cmd_multiplier; Rout ["client1"; "multiplier"];
               Rout ["client1"; "multiplier"; "{"]] in
  pub_sub_task b' = Listening /\ sent b' = sent b /\
  List.length (errors b') = 2%nat.
Proof.
  cbv zeta.
  destruct (X21_router_leaves_subscriber_alone Sample.env
              (run_events Sample.env
                 (fresh_bus Sample.env (Socket "pub") (Socket "sub"))
                 [Begin; Sub Sample.msg_full])
              [Rout Sample.cmd_multiplier; Rout ["client1"; "multiplier"];
               Rout ["client1"; "multiplier"; "{"]]) as (Ht & Hs & _).
  { repeat constructor; eexists; reflexivity. }
  rewrite Ht, Hs. repeat split; vm_compute; reflexivity.
Defined.
